(** * BlackRoad formal proof system: obligations and verification strategies

    A shallow embedding of [src/formal_proof_system.py]: the [ProofStatus]
    enumeration, the [ProofObligation] dataclass and the six [prove_*]
    methods of [FormalProofSystem].

    SymPy is an external library.  The strategies reach it through a handful
    of calls ([simplify], [expand], [factor], [limit], [diff], [integrate],
    the [-] operator, [== 0], [is_constant()] and string formatting); these
    are gathered in the [Oracle] interface and every development below is
    generic in the implementation of that interface.  A small exact
    polynomial calculator over the rationals implements the interface so
    that the strategies can be evaluated on concrete inputs.

    Conventions of the model:
    - a call into the library or into a caller-supplied probe either
      returns a value or raises an [Exception]; a call that never returns
      has no counterpart here;
    - formatting a value into a log line does not raise;
    - [bounds] is [None] or a pair [(lower, upper)];
    - a probe's answer is read through its truth value. *)

From Stdlib Require Import String List Bool ZArith QArith Lia.
From Stdlib Require Import DecimalString.
Import ListNotations.
Open Scope string_scope.

(** ** Exceptions and results

    A value of [Exn] is an instance of Python's [Exception] class, carrying
    the text that [str(e)] yields; this is the class the [except Exception]
    clauses of the six strategies name. *)

Inductive Exn : Type :=
| Exception (msg : string).

Definition exn_str (e : Exn) : string :=
  match e with Exception msg => msg end.

Inductive Result (A : Type) : Type :=
| Ok (a : A)
| Raise (e : Exn).

Arguments Ok {A} a.
Arguments Raise {A} e.

Definition raised {A : Type} (r : Result A) : bool :=
  match r with Ok _ => false | Raise _ => true end.

(** ** ProofStatus *)

Inductive ProofStatus : Type :=
| PROVEN
| REFUTED
| UNKNOWN
| AXIOM.

Definition value (s : ProofStatus) : string :=
  match s with
  | PROVEN => "✓ PROVEN"
  | REFUTED => "✗ REFUTED"
  | UNKNOWN => "? UNKNOWN"
  | AXIOM => "⊢ AXIOM"
  end.

Definition ProofStatus_eqb (a b : ProofStatus) : bool :=
  match a, b with
  | PROVEN, PROVEN | REFUTED, REFUTED | UNKNOWN, UNKNOWN | AXIOM, AXIOM => true
  | _, _ => false
  end.

(** ** The symbolic computation oracle

    [Expr] is the type of the symbolic values handed around (expressions,
    symbols, limit points, bounds).  Every call into the library may raise;
    [eq_zero] is the comparison [e == 0] and [fmt] the text an f-string
    inserts for [{e}].  [is_constant()] answers [True], [False] or [None]. *)

Inductive IntegrateArg (E : Type) : Type :=
| Sym (variable : E)
| Tuple3 (variable lower upper : E).

Arguments Sym {E} variable.
Arguments Tuple3 {E} variable lower upper.

Class Oracle : Type := {
  Expr : Type;
  sub : Expr -> Expr -> Result Expr;
  simplify : Expr -> Result Expr;
  expand : Expr -> Result Expr;
  factor : Expr -> Result Expr;
  limit : Expr -> Expr -> Expr -> Result Expr;
  diff : Expr -> Expr -> Result Expr;
  integrate : Expr -> IntegrateArg Expr -> Result Expr;
  is_constant : Expr -> Result (option bool);
  eq_zero : Expr -> bool;
  fmt : Expr -> string
}.

(** Truth value of an optional boolean: [None] is falsy. *)
Definition truthy (o : option bool) : bool :=
  match o with Some b => b | None => false end.

Section Engine.

Context {O : Oracle}.

(** ** ProofObligation *)

Record ProofObligation : Type := mkProofObligation {
  name : string;
  hypothesis : Expr;
  conclusion : Expr;
  proof_method : string;
  status : ProofStatus;
  proof_steps : list string
}.

(** [__post_init__]: an absent [proof_steps] becomes a fresh empty list. *)
Definition post_init (steps : option (list string)) : list string :=
  match steps with
  | None => []
  | Some l => l
  end.

(** The generated [__init__] followed by [__post_init__]; [status] and
    [proof_steps] are the two optional arguments, with the defaults
    [ProofStatus.UNKNOWN] and [None]. *)
Definition init (n : string) (h c : Expr) (m : string)
    (st : option ProofStatus) (steps : option (list string)) : ProofObligation :=
  {| name := n;
     hypothesis := h;
     conclusion := c;
     proof_method := m;
     status := match st with Some s => s | None => UNKNOWN end;
     proof_steps := post_init steps |}.

(** [ProofObligation(name, hypothesis, conclusion, proof_method)]. *)
Definition new_ProofObligation (n : string) (h c : Expr) (m : string) : ProofObligation :=
  init n h c m None None.

(** ** Calls leaving the engine

    Each call into the oracle or into a caller-supplied probe is recorded,
    in order, so that what a strategy invoked and in which order can be
    stated. *)

Inductive Call : Type :=
| CSub (a b : Expr)
| CSimplify (e : Expr)
| CExpand (e : Expr)
| CFactor (e : Expr)
| CLimit (e v p : Expr)
| CDiff (f v : Expr)
| CIntegrate (f : Expr) (a : IntegrateArg Expr)
| CIsConstant (e : Expr)
| CBaseCase
| CInductiveStep
| CLeadsToContradiction (a : Expr).

(** The state a strategy runs in: the obligation it borrows and mutates in
    place, and the calls made so far. *)
Record World : Type := mkWorld {
  ob : ProofObligation;
  calls : list Call
}.

(** ** A state and exception monad

    A computation returns a value or raises; the state it leaves behind is
    kept in both cases, as mutations made before a [raise] are not undone. *)

Definition M (A : Type) : Type := World -> Result A * World.

Definition ret {A : Type} (a : A) : M A := fun w => (Ok a, w).

Definition bind {A B : Type} (m : M A) (k : A -> M B) : M B :=
  fun w =>
    match m w with
    | (Ok a, w') => k a w'
    | (Raise e, w') => (Raise e, w')
    end.

Definition try_except {A : Type} (body : M A) (handler : Exn -> M A) : M A :=
  fun w =>
    match body w with
    | (Ok a, w') => (Ok a, w')
    | (Raise e, w') => handler e w'
    end.

Notation "x <- m ;; k" := (bind m (fun x => k))
  (at level 61, m at next level, right associativity).
Notation "m ;; k" := (bind m (fun _ => k))
  (at level 61, right associativity).

(** [obligation.status = s] *)
Definition set_status (s : ProofStatus) : M unit :=
  fun w =>
    let o := ob w in
    (Ok tt,
     {| ob := {| name := name o; hypothesis := hypothesis o;
                 conclusion := conclusion o; proof_method := proof_method o;
                 status := s; proof_steps := proof_steps o |};
        calls := calls w |}).

(** [obligation.proof_steps.append(line)] *)
Definition append_step (line : string) : M unit :=
  fun w =>
    let o := ob w in
    (Ok tt,
     {| ob := {| name := name o; hypothesis := hypothesis o;
                 conclusion := conclusion o; proof_method := proof_method o;
                 status := status o; proof_steps := proof_steps o ++ [line] |};
        calls := calls w |}).

(** Reading a field of the obligation. *)
Definition get {A : Type} (f : ProofObligation -> A) : M A :=
  fun w => (Ok (f (ob w)), w).

(** A call that leaves the engine: it is recorded, then its outcome is the
    outcome of the callee. *)
Definition call {A : Type} (c : Call) (r : Result A) : M A :=
  fun w => (r, {| ob := ob w; calls := calls w ++ [c] |}).

(** ** The six strategies *)

Definition prove_by_symbolic_simplification_body : M bool :=
  h <- get hypothesis ;;
  c <- get conclusion ;;
  d0 <- call (CSub h c) (sub h c) ;;
  diff <- call (CSimplify d0) (simplify d0) ;;
  if eq_zero diff || eq_zero diff then
    set_status PROVEN ;;
    append_step ("Simplified difference to: " ++ fmt diff) ;;
    append_step ("Since " ++ fmt diff ++ " = 0, equality holds") ;;
    ret true
  else
    expanded_diff <- call (CExpand diff) (expand diff) ;;
    if eq_zero expanded_diff then
      set_status PROVEN ;;
      append_step ("Expanded to: " ++ fmt expanded_diff) ;;
      ret true
    else
      factored_diff <- call (CFactor diff) (factor diff) ;;
      if eq_zero factored_diff then
        set_status PROVEN ;;
        append_step ("Factored to: " ++ fmt factored_diff) ;;
        ret true
      else
        set_status REFUTED ;;
        append_step ("Cannot simplify to zero: " ++ fmt diff) ;;
        ret false.

Definition prove_by_symbolic_simplification : M bool :=
  try_except prove_by_symbolic_simplification_body
    (fun e =>
       set_status UNKNOWN ;;
       append_step ("Error in simplification: " ++ exn_str e) ;;
       ret false).

Definition prove_by_mathematical_induction_body
    (base_case inductive_step : unit -> Result bool) : M bool :=
  b <- call CBaseCase (base_case tt) ;;
  if negb b then
    set_status REFUTED ;;
    append_step "Base case FAILED" ;;
    ret false
  else
    append_step "Base case: ✓ PROVEN" ;;
    s <- call CInductiveStep (inductive_step tt) ;;
    if negb s then
      set_status REFUTED ;;
      append_step "Inductive step FAILED" ;;
      ret false
    else
      append_step "Inductive step: ✓ PROVEN" ;;
      set_status PROVEN ;;
      append_step "By mathematical induction: ✓ PROVEN" ;;
      ret true.

Definition prove_by_mathematical_induction
    (base_case inductive_step : unit -> Result bool) : M bool :=
  try_except (prove_by_mathematical_induction_body base_case inductive_step)
    (fun e =>
       set_status UNKNOWN ;;
       append_step ("Induction error: " ++ exn_str e) ;;
       ret false).

Definition prove_by_contradiction_body
    (assumption : Expr) (leads_to_contradiction : Expr -> Result bool) : M bool :=
  contradiction <- call (CLeadsToContradiction assumption)
                        (leads_to_contradiction assumption) ;;
  if contradiction then
    set_status PROVEN ;;
    append_step ("Assumed: " ++ fmt assumption) ;;
    append_step "Derived contradiction" ;;
    append_step "Therefore negation must be false" ;;
    ret true
  else
    set_status UNKNOWN ;;
    ret false.

Definition prove_by_contradiction
    (assumption : Expr) (leads_to_contradiction : Expr -> Result bool) : M bool :=
  try_except (prove_by_contradiction_body assumption leads_to_contradiction)
    (fun e =>
       set_status UNKNOWN ;;
       append_step ("Error: " ++ exn_str e) ;;
       ret false).

Definition prove_limit_body
    (expression variable limit_point expected_value : Expr) : M bool :=
  computed_limit <- call (CLimit expression variable limit_point)
                         (limit expression variable limit_point) ;;
  d0 <- call (CSub computed_limit expected_value)
             (sub computed_limit expected_value) ;;
  d <- call (CSimplify d0) (simplify d0) ;;
  if eq_zero d then
    set_status PROVEN ;;
    append_step ("lim " ++ fmt variable ++ "→" ++ fmt limit_point ++ " "
                 ++ fmt expression ++ " = " ++ fmt computed_limit) ;;
    append_step ("Expected: " ++ fmt expected_value) ;;
    append_step "Match: ✓" ;;
    ret true
  else
    set_status REFUTED ;;
    append_step ("Limit is " ++ fmt computed_limit ++ ", expected "
                 ++ fmt expected_value) ;;
    ret false.

Definition prove_limit
    (expression variable limit_point expected_value : Expr) : M bool :=
  try_except (prove_limit_body expression variable limit_point expected_value)
    (fun e =>
       set_status UNKNOWN ;;
       append_step ("Limit computation error: " ++ exn_str e) ;;
       ret false).

Definition prove_derivative_body
    (function variable expected_derivative : Expr) : M bool :=
  computed_derivative <- call (CDiff function variable) (diff function variable) ;;
  d0 <- call (CSub computed_derivative expected_derivative)
             (sub computed_derivative expected_derivative) ;;
  d <- call (CSimplify d0) (simplify d0) ;;
  if eq_zero d then
    set_status PROVEN ;;
    append_step ("d/d" ++ fmt variable ++ " (" ++ fmt function ++ ") = "
                 ++ fmt computed_derivative) ;;
    append_step ("Expected: " ++ fmt expected_derivative) ;;
    append_step "Match: ✓" ;;
    ret true
  else
    set_status REFUTED ;;
    ret false.

Definition prove_derivative
    (function variable expected_derivative : Expr) : M bool :=
  try_except (prove_derivative_body function variable expected_derivative)
    (fun e =>
       set_status UNKNOWN ;;
       ret false).

(** [diff == 0 or (bounds is None and diff.is_constant())]: the second
    disjunct is evaluated only when the first is false, and
    [is_constant()] only when [bounds is None]. *)
Definition integral_accepts (bounds : option (Expr * Expr)) (diff : Expr) : M bool :=
  if eq_zero diff then ret true
  else
    match bounds with
    | None => k <- call (CIsConstant diff) (is_constant diff) ;; ret (truthy k)
    | Some _ => ret false
    end.

Definition prove_integral_body
    (integrand variable : Expr) (bounds : option (Expr * Expr))
    (expected_value : Expr) : M bool :=
  computed_integral <-
    match bounds with
    | None =>
        call (CIntegrate integrand (Sym variable))
             (integrate integrand (Sym variable))
    | Some (lo, hi) =>
        call (CIntegrate integrand (Tuple3 variable lo hi))
             (integrate integrand (Tuple3 variable lo hi))
    end ;;
  d0 <- call (CSub computed_integral expected_value)
             (sub computed_integral expected_value) ;;
  diff <- call (CSimplify d0) (simplify d0) ;;
  accepted <- integral_accepts bounds diff ;;
  if accepted then
    set_status PROVEN ;;
    append_step ("∫ " ++ fmt integrand ++ " d" ++ fmt variable ++ " = "
                 ++ fmt computed_integral) ;;
    append_step ("Expected: " ++ fmt expected_value) ;;
    ret true
  else
    set_status REFUTED ;;
    ret false.

Definition prove_integral
    (integrand variable : Expr) (bounds : option (Expr * Expr))
    (expected_value : Expr) : M bool :=
  try_except (prove_integral_body integrand variable bounds expected_value)
    (fun e =>
       set_status UNKNOWN ;;
       ret false).

(** ** One name for a strategy call with its inputs *)

Inductive Strategy : Type :=
| SymbolicSimplification
| MathematicalInduction (base_case inductive_step : unit -> Result bool)
| Contradiction (assumption : Expr) (leads_to_contradiction : Expr -> Result bool)
| Limit (expression variable limit_point expected_value : Expr)
| Derivative (function variable expected_derivative : Expr)
| Integral (integrand variable : Expr) (bounds : option (Expr * Expr))
           (expected_value : Expr).

(** The method a strategy call stands for. *)
Definition run (s : Strategy) : M bool :=
  match s with
  | SymbolicSimplification => prove_by_symbolic_simplification
  | MathematicalInduction b i => prove_by_mathematical_induction b i
  | Contradiction a p => prove_by_contradiction a p
  | Limit e v p x => prove_limit e v p x
  | Derivative f v x => prove_derivative f v x
  | Integral f v b x => prove_integral f v b x
  end.

(** The [try] block of that method. *)
Definition try_block (s : Strategy) : M bool :=
  match s with
  | SymbolicSimplification => prove_by_symbolic_simplification_body
  | MathematicalInduction b i => prove_by_mathematical_induction_body b i
  | Contradiction a p => prove_by_contradiction_body a p
  | Limit e v p x => prove_limit_body e v p x
  | Derivative f v x => prove_derivative_body f v x
  | Integral f v b x => prove_integral_body f v b x
  end.

(** What a caller observes after [run s] from [w]. *)
Definition returned (s : Strategy) (w : World) : Result bool := fst (run s w).
Definition final (s : Strategy) (w : World) : ProofObligation := ob (snd (run s w)).
Definition invoked (s : Strategy) (w : World) : list Call := calls (snd (run s w)).

End Engine.

(** ** An exact polynomial calculator implementing the oracle

    Expressions are polynomials in the single symbol [x] with rational
    coefficients, held as the list of coefficients by increasing degree.
    On such inputs differentiation, integration, evaluation at a point and
    the zero test are exact, which is all the concrete evaluations below
    rely on.  A call with another symbol than [x], or with a bound or a
    limit point that is not a number, raises. *)

Module Poly.

Definition poly : Type := list Q.

(** Canonical form: reduced coefficients, no trailing zero. *)
Fixpoint strip (p : poly) : poly :=
  match p with
  | [] => []
  | c :: r =>
      match strip r with
      | [] => if Qeq_bool c 0 then [] else [Qred c]
      | r' => Qred c :: r'
      end
  end.

Fixpoint psub (p q : poly) : poly :=
  match p, q with
  | [], _ => map Qopp q
  | _, [] => p
  | a :: p', b :: q' => (a - b)%Q :: psub p' q'
  end.

(** [deriv_from k p]: derivative of [p * x^k] divided by [x^(k-1)]. *)
Fixpoint deriv_from (k : positive) (p : poly) : poly :=
  match p with
  | [] => []
  | c :: r => (inject_Z (Zpos k) * c)%Q :: deriv_from (Pos.succ k) r
  end.

Definition deriv (p : poly) : poly :=
  match p with
  | [] => []
  | _ :: r => deriv_from 1 r
  end.

Fixpoint antideriv_from (k : positive) (p : poly) : poly :=
  match p with
  | [] => []
  | c :: r => (c / inject_Z (Zpos k))%Q :: antideriv_from (Pos.succ k) r
  end.

(** The antiderivative with constant term 0. *)
Definition antideriv (p : poly) : poly := 0%Q :: antideriv_from 1 p.

Fixpoint eval (p : poly) (a : Q) : Q :=
  match p with
  | [] => 0%Q
  | c :: r => (c + a * eval r a)%Q
  end.

Definition is_x (v : poly) : bool :=
  match strip v with
  | [a; b] => Qeq_bool a 0 && Qeq_bool b 1
  | _ => false
  end.

Definition as_number (p : poly) : option Q :=
  match strip p with
  | [] => Some 0%Q
  | [c] => Some c
  | _ => None
  end.

Definition is_zero (p : poly) : bool := forallb (fun c => Qeq_bool c 0) p.

Definition show_Z (z : Z) : string := NilZero.string_of_int (Z.to_int z).

Definition show_Q (c : Q) : string :=
  let c' := Qred c in
  match Qden c' with
  | xH => show_Z (Qnum c')
  | d => show_Z (Qnum c') ++ "/" ++ show_Z (Zpos d)
  end.

Definition show_term (c : Q) (k : nat) : string :=
  match k with
  | O => show_Q c
  | S O => if Qeq_bool c 1 then "x" else show_Q c ++ "*x"
  | _ =>
      (if Qeq_bool c 1 then "x" else show_Q c ++ "*x")
      ++ "**" ++ show_Z (Z.of_nat k)
  end.

Fixpoint show_from (k : nat) (p : poly) : list string :=
  match p with
  | [] => []
  | c :: r =>
      if Qeq_bool c 0 then show_from (S k) r
      else show_term c k :: show_from (S k) r
  end.

Definition show (p : poly) : string :=
  match show_from 0 p with
  | [] => "0"
  | t :: ts => fold_left (fun acc s => acc ++ " + " ++ s) ts t
  end.

Definition not_a_symbol : Exn := Exception "not the symbol x".
Definition not_a_number : Exn := Exception "not a number".

Definition plimit (e v p : poly) : Result poly :=
  if is_x v then
    match as_number p with
    | Some a => Ok (strip [eval e a])
    | None => Raise not_a_number
    end
  else Raise not_a_symbol.

Definition pdiff (f v : poly) : Result poly :=
  if is_x v then Ok (strip (deriv f)) else Raise not_a_symbol.

Definition pintegrate (f : poly) (a : IntegrateArg poly) : Result poly :=
  match a with
  | Sym v => if is_x v then Ok (strip (antideriv f)) else Raise not_a_symbol
  | Tuple3 v lo hi =>
      if is_x v then
        match as_number lo, as_number hi with
        | Some l, Some h =>
            Ok (strip [(eval (antideriv f) h - eval (antideriv f) l)%Q])
        | _, _ => Raise not_a_number
        end
      else Raise not_a_symbol
  end.

Definition pis_constant (p : poly) : Result (option bool) :=
  Ok (Some (Nat.leb (length (strip p)) 1)).

#[export] Instance oracle : Oracle := {|
  Expr := poly;
  sub := fun p q => Ok (psub p q);
  simplify := fun p => Ok (strip p);
  expand := fun p => Ok (strip p);
  factor := fun p => Ok (strip p);
  limit := plimit;
  diff := pdiff;
  integrate := pintegrate;
  is_constant := pis_constant;
  eq_zero := is_zero;
  fmt := show
|}.

(** A variant that compares structurally with the empty polynomial and
    whose three normalisers are given, so that a zero may be recognised by
    [expand] or [factor] only: it drives the simplification strategy into
    its second and third stage. *)
Definition staged (simp exp fac : poly -> poly) : Oracle := {|
  Expr := poly;
  sub := fun p q => Ok (psub p q);
  simplify := fun p => Ok (simp p);
  expand := fun p => Ok (exp p);
  factor := fun p => Ok (fac p);
  limit := plimit;
  diff := pdiff;
  integrate := pintegrate;
  is_constant := pis_constant;
  eq_zero := fun p => match p with [] => true | _ :: _ => false end;
  fmt := show
|}.

Definition keep (p : poly) : poly := p.

(** Zero is recognised by [expand] and [factor], not by [simplify]. *)
Definition second_stage : Oracle := staged keep strip strip.

(** Zero is recognised by [factor] only. *)
Definition third_stage : Oracle := staged keep keep strip.

(** A fresh obligation at a given oracle. *)
Definition fresh_at (o : Oracle) (h c : @Expr o) : @World o :=
  {| ob := @new_ProofObligation o "obligation" h c "method"; calls := [] |}.

(** The symbol [x] and the numbers. *)
Definition x : poly := [0%Q; 1%Q].
Definition num (q : Q) : poly := [q].

(** A fresh obligation about [h] and [c], before any call. *)
Definition fresh (h c : poly) : World :=
  {| ob := new_ProofObligation "obligation" h c "method"; calls := [] |}.

(** Probes: one that answers [b], one that raises, and a contradiction
    predicate that always answers false. *)
Definition answers (b : bool) : unit -> Result bool := fun _ => Ok b.
Definition never_contradicts : poly -> Result bool := fun _ => Ok false.

(** The six kinds of call at this oracle. *)
Definition by_simplification : Strategy := SymbolicSimplification.
Definition by_induction (b i : unit -> Result bool) : Strategy :=
  MathematicalInduction b i.
Definition by_contradiction (a : poly) (p : poly -> Result bool) : Strategy :=
  Contradiction a p.
Definition check_limit (e v p expected : poly) : Strategy := Limit e v p expected.
Definition check_derivative (f v expected : poly) : Strategy :=
  Derivative f v expected.
Definition check_integral (f v : poly) (bounds : option (poly * poly))
    (expected : poly) : Strategy :=
  Integral f v bounds expected.

End Poly.

(** ** Kinds of calls *)

Section CallKinds.

Context {O : Oracle}.

(** Whether a recorded call went to a caller-supplied probe rather than to
    the library. *)
Definition is_probe (c : Call) : bool :=
  match c with
  | CBaseCase | CInductiveStep | CLeadsToContradiction _ => true
  | _ => false
  end.

(** The strategies whose inputs are symbolic expressions. *)
Definition is_symbolic (s : Strategy) : bool :=
  match s with
  | MathematicalInduction _ _ | Contradiction _ _ => false
  | _ => true
  end.

End CallKinds.

(** ** Text helpers *)

(** The newline character, and [s * n] on strings. *)
Definition nl : string := String (Ascii.ascii_of_nat 10) EmptyString.

Fixpoint str_mul (s : string) (n : nat) : string :=
  match n with
  | O => EmptyString
  | S n' => s ++ str_mul s n'
  end.

(** ["=" * 70] *)
Definition rule : string := str_mul "=" 70.

(** What an f-string inserts for an [int] and for a [bool]. *)
Definition show_nat (n : nat) : string := NilZero.string_of_uint (Nat.to_uint n).

Definition show_bool (b : bool) : string := if b then "True" else "False".

(** ** Python dictionaries with string keys

    Pairs in insertion order, one pair per key. *)

Definition dict (V : Type) : Type := list (string * V).

(** [d[k] = v]: replaces the value of an existing key in place, appends a
    new key at the end. *)
Fixpoint dict_set {V : Type} (k : string) (v : V) (d : dict V) : dict V :=
  match d with
  | [] => [(k, v)]
  | (k', v') :: r =>
      if String.eqb k k' then (k, v) :: r else (k', v') :: dict_set k v r
  end.

(** [d.get(k)] *)
Fixpoint dict_get {V : Type} (k : string) (d : dict V) : option V :=
  match d with
  | [] => None
  | (k', v') :: r => if String.eqb k k' then Some v' else dict_get k r
  end.

(** [list(d)]: the keys in insertion order. *)
Definition dict_keys {V : Type} (d : dict V) : list string := map fst d.

(** ** Objects with a standard output

    A running program holds one object ([self]) and the lines printed so
    far, one entry per [print] call.  A computation on it returns a value
    or raises; what it did before raising stays done. *)

Record Running (T : Type) : Type := mkRunning {
  self : T;
  stdout : list string
}.

Arguments mkRunning {T} self stdout.
Arguments self {T} r.
Arguments stdout {T} r.

Definition Eff (T A : Type) : Type := Running T -> Result A * Running T.

Section Effects.

Context {T : Type}.

Definition eret {A : Type} (a : A) : Eff T A := fun p => (Ok a, p).

Definition ebind {A B : Type} (m : Eff T A) (k : A -> Eff T B) : Eff T B :=
  fun p =>
    match m p with
    | (Ok a, p') => k a p'
    | (Raise e, p') => (Raise e, p')
    end.

(** [try: body  except Exception as e: handler] *)
Definition etry {A : Type} (body : Eff T A) (handler : Exn -> Eff T A)
    : Eff T A :=
  fun p =>
    match body p with
    | (Ok a, p') => (Ok a, p')
    | (Raise e, p') => handler e p'
    end.

(** The outcome of a call that does not touch the object. *)
Definition elift {A : Type} (r : Result A) : Eff T A := fun p => (r, p).

(** Reading and assigning attributes of [self]. *)
Definition read {A : Type} (f : T -> A) : Eff T A :=
  fun p => (Ok (f (self p)), p).

Definition update (f : T -> T) : Eff T unit :=
  fun p => (Ok tt, {| self := f (self p); stdout := stdout p |}).

Definition print (line : string) : Eff T unit :=
  fun p => (Ok tt, {| self := self p; stdout := stdout p ++ [line] |}).

Fixpoint print_all (lines : list string) : Eff T unit :=
  match lines with
  | [] => eret tt
  | l :: r => ebind (print l) (fun _ => print_all r)
  end.

(** A running program after more output. *)
Definition emit (p : Running T) (lines : list string) : Running T :=
  {| self := self p; stdout := stdout p ++ lines |}.

(** A computation that leaves the object alone and only adds output. *)
Definition only_prints {A : Type} (m : Eff T A) : Prop :=
  forall p : Running T, exists lines : list string, snd (m p) = emit p lines.

End Effects.

(** ** The proof system object, its registries and its drivers *)

(** SymPy calls made by the drivers outside the strategies. *)
Class SeriesOracle (O : Oracle) : Type := {
  series : Expr -> Expr -> Expr -> nat -> Result Expr;
  removeO : Expr -> Result Expr;
  subs : Expr -> Expr -> Expr -> Result Expr
}.

(** The expressions the drivers build before calling a strategy, named
    after the variables that hold them. *)
Record DriverInputs (O : Oracle) : Type := {
  (* _setup_axioms *)
  ax_complex_unit : Expr;
  ax_euler_exponential : Expr;
  ax_commutativity : Expr;
  ax_associativity : Expr;
  ax_distributivity : Expr;
  (* _setup_definitions *)
  spiral_op : Expr;
  phi : Expr;
  beta_BR : Expr;
  (* prove_theorem_2_1_1_spiral_growth *)
  z_full : Expr;
  z_compact : Expr;
  (* prove_theorem_2_2_1_euler_identity *)
  euler_lhs : Expr;
  euler_rhs : Expr;
  exp_I_x : Expr;
  x_symbol : Expr;
  zero_point : Expr;
  pi_value : Expr;
  (* prove_theorem_2_4_1_golden_ratio_limit *)
  ratio : Expr;
  n_symbol : Expr;
  oo_value : Expr;
  phi_squared : Expr;
  phi_plus_one : Expr
}.

Arguments ax_complex_unit {O}.
Arguments ax_euler_exponential {O}.
Arguments ax_commutativity {O}.
Arguments ax_associativity {O}.
Arguments ax_distributivity {O}.
Arguments spiral_op {O}.
Arguments phi {O}.
Arguments beta_BR {O}.
Arguments z_full {O}.
Arguments z_compact {O}.
Arguments euler_lhs {O}.
Arguments euler_rhs {O}.
Arguments exp_I_x {O}.
Arguments x_symbol {O}.
Arguments zero_point {O}.
Arguments pi_value {O}.
Arguments ratio {O}.
Arguments n_symbol {O}.
Arguments oo_value {O}.
Arguments phi_squared {O}.
Arguments phi_plus_one {O}.

(** Texts that come out of floating-point arithmetic and formatting: the
    five numeric insertions of [prove_heisenberg_uncertainty], and the
    text of [100*proven/total] under [.1f]. *)
Record FloatText : Type := {
  heisenberg_dx : string;
  heisenberg_dp : string;
  heisenberg_product : string;
  heisenberg_bound : string;
  heisenberg_holds : bool;
  rate_1f : nat -> nat -> string
}.

(** The Mandelbrot step and the two loops of [prove_mandelbrot_stability]:
    [n] rounds of [z = z**2 + c; trajectory.append(z)], without and with
    [if abs(z) > 2: break].  Both give the last [z] and the trajectory. *)
Definition mandelbrot_step (z c : Z) : Z := (z ^ 2 + c)%Z.

Fixpoint loop_no_break (n : nat) (z c : Z) (trajectory : list Z)
    : Z * list Z :=
  match n with
  | O => (z, trajectory)
  | S n' =>
      let z' := mandelbrot_step z c in
      loop_no_break n' z' c (trajectory ++ [z'])%list
  end.

Fixpoint loop_with_break (n : nat) (z c : Z) (trajectory : list Z)
    : Z * list Z :=
  match n with
  | O => (z, trajectory)
  | S n' =>
      let z' := mandelbrot_step z c in
      if (Z.abs z' >? 2)%Z then (z', (trajectory ++ [z'])%list)
      else loop_with_break n' z' c (trajectory ++ [z'])%list
  end.

Section ProofSystem.

Context {O : Oracle} {SO : SeriesOracle O}.
Variable K : DriverInputs O.
Variable FT : FloatText.

(** A registered axiom is a symbolic statement or a sentence. *)
Inductive Statement : Type :=
| Symbolic (e : Expr)
| Sentence (s : string).

Record FormalProofSystem : Type := mkFormalProofSystem {
  axioms : dict Statement;
  definitions : dict Expr;
  lemmas : dict ProofObligation;
  theorems : dict ProofObligation;
  corollaries : dict ProofObligation
}.

(** [FormalProofSystem.__init__] *)
Definition FormalProofSystem_init : FormalProofSystem :=
  {| axioms := []; definitions := []; lemmas := []; theorems := [];
     corollaries := [] |}.

Definition Process : Type := Running FormalProofSystem.

Definition Proc (A : Type) : Type := Eff FormalProofSystem A.

Notation "x <- m ;; k" := (ebind m (fun x => k))
  (at level 61, m at next level, right associativity).
Notation "m ;; k" := (ebind m (fun _ => k))
  (at level 61, right associativity).

Definition add_axiom (name : string) (statement : Statement) : Proc unit :=
  update (fun s =>
            {| axioms := dict_set name statement (axioms s);
               definitions := definitions s; lemmas := lemmas s;
               theorems := theorems s; corollaries := corollaries s |}) ;;
  print ("  " ++ value AXIOM ++ " " ++ name).

Definition add_definition (name : string) (definition : Expr) : Proc unit :=
  update (fun s =>
            {| axioms := axioms s;
               definitions := dict_set name definition (definitions s);
               lemmas := lemmas s; theorems := theorems s;
               corollaries := corollaries s |}) ;;
  print ("  DEF " ++ name).

Definition _setup_axioms : Proc unit :=
  print (nl ++ rule) ;;
  print "AXIOMS (Accepted Without Proof)" ;;
  print rule ;;
  add_axiom "complex_unit" (Symbolic (ax_complex_unit K)) ;;
  add_axiom "euler_exponential" (Symbolic (ax_euler_exponential K)) ;;
  add_axiom "commutativity" (Symbolic (ax_commutativity K)) ;;
  add_axiom "associativity" (Symbolic (ax_associativity K)) ;;
  add_axiom "distributivity" (Symbolic (ax_distributivity K)) ;;
  add_axiom "exp_continuous" (Sentence "e^x is continuous everywhere").

Definition _setup_definitions : Proc unit :=
  print (nl ++ rule) ;;
  print "DEFINITIONS" ;;
  print rule ;;
  add_definition "spiral_operator" (spiral_op K) ;;
  add_definition "golden_ratio" (phi K) ;;
  add_definition "blackroad_constant" (beta_BR K).

(** [BlackRoadFormalSystem()], started with the given standard output. *)
Definition BlackRoadFormalSystem_init (out : list string) : Result unit * Process :=
  (_setup_axioms ;; _setup_definitions)
    {| self := FormalProofSystem_init; stdout := out |}.

(** Calling a strategy method on an obligation held in a local variable:
    the obligation after the call, and what the call returned. *)
Definition call_strategy (s : Strategy) (obligation : ProofObligation)
    : Proc (bool * ProofObligation) :=
  fun p =>
    match run s {| ob := obligation; calls := [] |} with
    | (Ok success, w) => (Ok (success, ob w), p)
    | (Raise e, _) => (Raise e, p)
    end.

(** [print(f"\n  {obligation.status.value}")] and the loop over the
    steps. *)
Definition print_outcome (obligation : ProofObligation) : Proc unit :=
  print (nl ++ "  " ++ value (status obligation)) ;;
  print_all (map (fun step => "    " ++ step) (proof_steps obligation)).

(** The obligations the three drivers construct. *)
Definition spiral_obligation : ProofObligation :=
  new_ProofObligation "Spiral decomposition" (z_full K) (z_compact K)
    "Symbolic simplification".

Definition euler_obligation : ProofObligation :=
  new_ProofObligation "Euler's identity" (euler_lhs K) (euler_rhs K)
    "Symbolic simplification".

Definition fibonacci_obligation : ProofObligation :=
  new_ProofObligation "Fibonacci ratio limit" (ratio K) (phi K)
    "Limit computation".

Definition prove_theorem_2_1_1_spiral_growth : Proc ProofObligation :=
  print (nl ++ rule) ;;
  print "THEOREM 2.1.1: Spiral Growth Decomposition" ;;
  print rule ;;
  r <- call_strategy SymbolicSimplification spiral_obligation ;;
  print_outcome (snd r) ;;
  eret (snd r).

Definition prove_theorem_2_2_1_euler_identity : Proc ProofObligation :=
  print (nl ++ rule) ;;
  print "THEOREM 2.2.1: Euler's Identity" ;;
  print rule ;;
  r <- call_strategy SymbolicSimplification euler_obligation ;;
  print_outcome (snd r) ;;
  print (nl ++ "  ADDITIONAL VERIFICATION via Taylor series:") ;;
  ser <- elift (series (exp_I_x K) (x_symbol K) (zero_point K) 10) ;;
  taylor_exp <- elift (removeO ser) ;;
  at_pi <- elift (subs taylor_exp (x_symbol K) (pi_value K)) ;;
  print ("    e^(ix) ≈ " ++ fmt taylor_exp) ;;
  print ("    At x=π: " ++ fmt at_pi) ;;
  simplified <- elift (simplify at_pi) ;;
  print ("    Simplifies to: " ++ fmt simplified) ;;
  eret (snd r).

Definition prove_theorem_2_4_1_golden_ratio_limit : Proc ProofObligation :=
  print (nl ++ rule) ;;
  print "THEOREM 2.4.1: Fibonacci Golden Ratio Convergence" ;;
  print rule ;;
  r <- call_strategy (Limit (ratio K) (n_symbol K) (oo_value K) (phi K))
         fibonacci_obligation ;;
  print_outcome (snd r) ;;
  print (nl ++ "  LEMMA: φ² = φ + 1") ;;
  d0 <- elift (sub (phi_squared K) (phi_plus_one K)) ;;
  diff <- elift (simplify d0) ;;
  print ("    φ² - (φ + 1) = " ++ fmt diff) ;;
  print "    ✓ PROVEN (difference is zero)" ;;
  eret (snd r).

Definition prove_heisenberg_uncertainty : Proc unit :=
  print (nl ++ rule) ;;
  print "THEOREM: Heisenberg Uncertainty Principle" ;;
  print rule ;;
  print "  GIVEN: [x, p] = iℏ (canonical commutation relation)" ;;
  print "  TO PROVE: Δx·Δp ≥ ℏ/2" ;;
  print "" ;;
  print "  PROOF:" ;;
  print "    1. For any operators A, B:" ;;
  print "       (ΔA)²(ΔB)² ≥ (1/4)|⟨[A,B]⟩|²" ;;
  print "       (Robertson uncertainty relation)" ;;
  print "" ;;
  print "    2. Let A = x, B = p" ;;
  print "       [x, p] = iℏ" ;;
  print "" ;;
  print "    3. Therefore:" ;;
  print "       (Δx)²(Δp)² ≥ (1/4)|⟨iℏ⟩|²" ;;
  print "       (Δx)²(Δp)² ≥ (1/4)ℏ²" ;;
  print "" ;;
  print "    4. Taking square root:" ;;
  print "       Δx·Δp ≥ ℏ/2" ;;
  print "" ;;
  print "  ✓ PROVEN (by Robertson relation)" ;;
  print (nl ++ "  NUMERICAL VERIFICATION:") ;;
  print ("    Δx = " ++ heisenberg_dx FT ++ " m") ;;
  print ("    Δp = " ++ heisenberg_dp FT ++ " kg·m/s") ;;
  print ("    Δx·Δp = " ++ heisenberg_product FT) ;;
  print ("    ℏ/2 = " ++ heisenberg_bound FT) ;;
  print ("    Δx·Δp ≥ ℏ/2? " ++ show_bool (heisenberg_holds FT)).

Definition prove_mandelbrot_stability : Proc unit :=
  print (nl ++ rule) ;;
  print "THEOREM 2.3.1: Mandelbrot Stability Criterion" ;;
  print rule ;;
  print "  ITERATION: z_{n+1} = z_n² + c" ;;
  print "  CLAIM: If |z_n| > 2 for some n, then |z_m| → ∞ as m → ∞" ;;
  print "" ;;
  print "  PROOF:" ;;
  print "    1. Assume |z_n| > 2 for some n" ;;
  print "    2. Then |z_{n+1}| = |z_n² + c|" ;;
  print "    3. By triangle inequality:" ;;
  print "       |z_{n+1}| ≥ |z_n²| - |c|" ;;
  print "    4. Since |z_n| > 2:" ;;
  print "       |z_{n+1}| ≥ |z_n|² - |c|" ;;
  print "    5. For |c| ≤ 2 (typical Mandelbrot set bound):" ;;
  print "       |z_{n+1}| ≥ 4 - 2 = 2" ;;
  print "    6. More generally, |z_{n+1}| ≥ |z_n|² - 2" ;;
  print "    7. If |z_n| > 2, then |z_n|² > 2|z_n|" ;;
  print "    8. So |z_{n+1}| > 2|z_n| - 2 > |z_n|" ;;
  print "    9. Thus sequence is strictly increasing" ;;
  print "    10. Therefore |z_n| → ∞" ;;
  print "" ;;
  print "  ✓ PROVEN (by mathematical induction)" ;;
  print (nl ++ "  NUMERICAL VERIFICATION:") ;;
  (let trajectory := snd (loop_no_break 100 0 0 [0%Z]) in
   let stable := forallb (fun z => (Z.abs z <? 2)%Z) trajectory in
   print ("    c=0: |z| stays bounded? " ++ show_bool stable ++ " ✓")) ;;
  (let z := fst (loop_with_break 20 0 1 [0%Z]) in
   let escapes := (Z.abs z >? 2)%Z in
   print ("    c=1: |z| escapes? " ++ show_bool escapes ++ " ✓")).

(** [sum(1 for t in theorems if t.status == ProofStatus.PROVEN)] *)
Definition count_proven (ts : list ProofObligation) : nat :=
  length (filter (fun t => ProofStatus_eqb (status t) PROVEN) ts).

Definition run_complete_verification : Proc unit :=
  print (nl ++ rule) ;;
  print "BLACKROAD FORMAL VERIFICATION SYSTEM" ;;
  print "Complete Rigorous Mathematical Proofs" ;;
  print rule ;;
  t1 <- prove_theorem_2_1_1_spiral_growth ;;
  t2 <- prove_theorem_2_2_1_euler_identity ;;
  t3 <- prove_theorem_2_4_1_golden_ratio_limit ;;
  let theorem_list := [t1; t2; t3] in
  prove_heisenberg_uncertainty ;;
  prove_mandelbrot_stability ;;
  print (nl ++ rule) ;;
  print "VERIFICATION SUMMARY" ;;
  print rule ;;
  let proven := count_proven theorem_list in
  let total := length theorem_list in
  print ("  Theorems Proven: " ++ show_nat proven ++ "/" ++ show_nat total) ;;
  print ("  Success Rate: " ++ rate_1f FT proven total ++ "%") ;;
  print_all (map (fun t => "  " ++ value (status t) ++ " " ++ name t)
                 theorem_list) ;;
  print rule.

(** The program of the file: construct the system, run everything. *)
Definition main (out : list string) : Result unit * Process :=
  (_setup_axioms ;; _setup_definitions ;; run_complete_verification)
    {| self := FormalProofSystem_init; stdout := out |}.

(** The obligation a strategy leaves when called on [o]. *)
Definition discharged (s : Strategy) (o : ProofObligation) : ProofObligation :=
  final s {| ob := o; calls := [] |}.

(** The obligations the three drivers end with. *)
Definition spiral_result : ProofObligation :=
  discharged SymbolicSimplification spiral_obligation.


Definition fibonacci_result : ProofObligation :=
  discharged (Limit (ratio K) (n_symbol K) (oo_value K) (phi K))
    fibonacci_obligation.

(** The lines [print_outcome] writes. *)
Definition outcome_lines (t : ProofObligation) : list string :=
  (nl ++ "  " ++ value (status t))
  :: map (fun step => "    " ++ step) (proof_steps t).


End ProofSystem.

(** * [theorem_proof_checker.py]: TheoremChecker *)

(** What [verify] asks of a condition that is not a Python [bool]:
    [bool(condition)], and [simplify(condition) == True]; and what
    [simplify] gives for a Python [bool]. *)
Class ConditionOracle (O : Oracle) : Type := {
  truth : Expr -> Result bool;
  eq_True : Expr -> bool;
  simplify_bool : bool -> Result Expr
}.

Section Checker.

Context {O : Oracle} {CO : ConditionOracle O}.

(** A condition passed to [verify]: a Python [bool], or another object. *)
Inductive Condition : Type :=
| PyBool (b : bool)
| Object (e : Expr).

Record TheoremChecker : Type := mkTheoremChecker {
  verified : list string;
  failed : list string
}.

(** [TheoremChecker.__init__] *)
Definition TheoremChecker_init : TheoremChecker :=
  {| verified := []; failed := [] |}.

Notation "x <- m ;; k" := (ebind m (fun x => k))
  (at level 61, m at next level, right associativity).
Notation "m ;; k" := (ebind m (fun _ => k))
  (at level 61, right associativity).

Definition verified_append (theorem_name : string) : Eff TheoremChecker unit :=
  update (fun c => {| verified := verified c ++ [theorem_name];
                      failed := failed c |}).

Definition failed_append (theorem_name : string) : Eff TheoremChecker unit :=
  update (fun c => {| verified := verified c;
                      failed := failed c ++ [theorem_name] |}).

(** [bool(condition) if not isinstance(condition, bool) else condition] *)
Definition condition_result (condition : Condition) : Eff TheoremChecker bool :=
  match condition with
  | PyBool b => eret b
  | Object e => elift (truth e)
  end.

(** [simplify(condition) == True] *)
Definition simplifies_to_True (condition : Condition) : Eff TheoremChecker bool :=
  s <- elift (match condition with
              | PyBool b => simplify_bool b
              | Object e => simplify e
              end) ;;
  eret (eq_True s).

(** [condition == 0]; a Python [bool] is an [int], so [False == 0]
    holds and [True == 0] does not. *)
Definition equals_zero (condition : Condition) : bool :=
  match condition with
  | PyBool b => negb b
  | Object e => eq_zero e
  end.

(** [result or simplify(condition) == True or condition == 0], evaluated
    from the left, stopping at the first true operand. *)
Definition accepted (condition : Condition) (result : bool)
    : Eff TheoremChecker bool :=
  if result then eret true
  else
    t <- simplifies_to_True condition ;;
    if t then eret true else eret (equals_zero condition).

Definition nonempty (s : string) : bool :=
  match s with EmptyString => false | String _ _ => true end.

Definition verify_body (theorem_name : string) (condition : Condition)
    (description : string) : Eff TheoremChecker bool :=
  result <- condition_result condition ;;
  ok <- accepted condition result ;;
  if ok then
    verified_append theorem_name ;;
    print ("  ✓ " ++ theorem_name) ;;
    (if nonempty description then print ("    " ++ description) else eret tt) ;;
    eret true
  else
    failed_append theorem_name ;;
    print ("  ✗ " ++ theorem_name ++ ": Condition not satisfied") ;;
    eret false.

Definition verify (theorem_name : string) (condition : Condition)
    (description : string) : Eff TheoremChecker bool :=
  etry (verify_body theorem_name condition description)
    (fun e =>
       failed_append theorem_name ;;
       print ("  ✗ " ++ theorem_name ++ ": Error - " ++ exn_str e) ;;
       eret false).

(** [', '.join(names)] *)
Definition join_names (names : list string) : string :=
  String.concat ", " names.

Definition report : Eff TheoremChecker unit :=
  v <- read verified ;;
  f <- read failed ;;
  let total := (length v + length f)%nat in
  print (nl ++ rule) ;;
  print ("Verified: " ++ show_nat (length v) ++ "/" ++ show_nat total
         ++ " theorems") ;;
  (match f with
   | [] => eret tt
   | _ :: _ => print ("Failed: " ++ join_names f)
   end) ;;
  print (rule ++ nl).

(** Several [verify] calls in a row, as the [verify_*] functions make
    them; the booleans returned, in order. *)
Fixpoint verify_each (items : list (string * Condition * string))
    : Eff TheoremChecker (list bool) :=
  match items with
  | [] => eret []
  | (theorem_name, condition, description) :: rest =>
      b <- verify theorem_name condition description ;;
      bs <- verify_each rest ;;
      eret (b :: bs)
  end.

(** The names among [items] whose flag is [want]. *)
Fixpoint names_flagged (want : bool)
    (items : list (string * Condition * string)) (flags : list bool)
    : list string :=
  match items, flags with
  | (theorem_name, _, _) :: rest, b :: bs =>
      if Bool.eqb b want then theorem_name :: names_flagged want rest bs
      else names_flagged want rest bs
  | _, _ => []
  end.

End Checker.

(** * [spiral_operator_tests.py]: the Mandelbrot iteration and the runner *)

(** [TestMandelbrotIteration.iterate(z, c, n_iterations)] on integers:
    the same loop as the second one of [prove_mandelbrot_stability],
    returning the trajectory.  [range] of a negative count is empty. *)
Definition iterate (z c : Z) (n_iterations : Z) : list Z :=
  snd (loop_with_break (Z.to_nat n_iterations) z c [z]).

(** The default [n_iterations=100]. *)
Definition iterate_default (z c : Z) : list Z := iterate z c 100.

(** Each element after the first is the step of the one before. *)
Fixpoint is_orbit (c : Z) (trajectory : list Z) : Prop :=
  match trajectory with
  | a :: ((b :: _) as rest) => b = mandelbrot_step a c /\ is_orbit c rest
  | _ => True
  end.




Section Runner.

Notation "x <- m ;; k" := (ebind m (fun x => k))
  (at level 61, m at next level, right associativity).
Notation "m ;; k" := (ebind m (fun _ => k))
  (at level 61, right associativity).









End Runner.

(** * [verify_all_equations.py]: EquationVerifier *)

(** How a computation of this file stops early: a failed [assert], with
    its message (empty when the [assert] has none), or another
    exception. *)
Inductive Stop : Type :=
| Assertion (msg : string)
| Fault (e : Exn).

Inductive Outcome (A : Type) : Type :=
| Completed (a : A)
| Stopped (s : Stop).

Arguments Completed {A} a.
Arguments Stopped {A} s.

(** A computation on the standard output. *)
Definition Script (A : Type) : Type := list string -> Outcome A * list string.

Definition sret {A : Type} (a : A) : Script A := fun out => (Completed a, out).

Definition sbind {A B : Type} (m : Script A) (k : A -> Script B) : Script B :=
  fun out =>
    match m out with
    | (Completed a, out') => k a out'
    | (Stopped s, out') => (Stopped s, out')
    end.

Definition say (line : string) : Script unit :=
  fun out => (Completed tt, (out ++ [line])%list).

(** A library call: its exception, if any, is not an [AssertionError]. *)
Definition lib {A : Type} (r : Result A) : Script A :=
  fun out =>
    match r with
    | Ok a => (Completed a, out)
    | Raise e => (Stopped (Fault e), out)
    end.

(** [try: body  except AssertionError as e: handler]: other exceptions
    pass through. *)
Definition except_AssertionError {A : Type} (body : Script A)
    (handler : string -> Script A) : Script A :=
  fun out =>
    match body out with
    | (Stopped (Assertion msg), out') => handler msg out'
    | other => other
    end.

(** The expressions the checks are made on, as built by the methods. *)
Record EquationInputs (O : Oracle) : Type := {
  (* verify_spiral_operator_family *)
  eq_U1 : Expr;
  eq_U2 : Expr;
  eq_U_dag_U1 : Expr;
  eq_exp_sq : Expr;
  eq_expected_mag_sq : Expr;
  (* verify_complex_analysis_equations *)
  eq_euler_left : Expr;
  eq_euler_right : Expr;
  (* verify_golden_ratio_equations *)
  eq_phi_pow_2 : Expr;
  eq_phi_add_1 : Expr;
  eq_inv_phi : Expr;
  eq_phi_sub_1 : Expr;
  (* verify_differential_equations *)
  eq_dV_dt : Expr;
  eq_expected : Expr
}.

Arguments eq_U1 {O}.
Arguments eq_U2 {O}.
Arguments eq_U_dag_U1 {O}.
Arguments eq_exp_sq {O}.
Arguments eq_expected_mag_sq {O}.
Arguments eq_euler_left {O}.
Arguments eq_euler_right {O}.
Arguments eq_phi_pow_2 {O}.
Arguments eq_phi_add_1 {O}.
Arguments eq_inv_phi {O}.
Arguments eq_phi_sub_1 {O}.
Arguments eq_dV_dt {O}.
Arguments eq_expected {O}.

Section Equations.

Context {O : Oracle}.
Variable I : EquationInputs O.

Notation "x <- m ;; k" := (sbind m (fun x => k))
  (at level 61, m at next level, right associativity).
Notation "m ;; k" := (sbind m (fun _ => k))
  (at level 61, right associativity).

(** [assert simplify(a - b) == 0, msg] *)
Definition assert_difference_zero (a b : Expr) (msg : string) : Script unit :=
  d <- lib (sub a b) ;;
  r <- lib (simplify d) ;;
  if eq_zero r then sret tt else (fun out => (Stopped (Assertion msg), out)).

Definition verify_spiral_operator_family : Script unit :=
  say (nl ++ rule) ;;
  say "SPIRAL OPERATOR FAMILY EQUATIONS" ;;
  say rule ;;
  assert_difference_zero (eq_U1 I) (eq_U2 I) "Basic decomposition" ;;
  say "  ✓ 𝓤(θ,a) = e^(aθ)·e^(iθ)" ;;
  say "  ✓ Matrix representation verified" ;;
  say "  ✓ 𝓤(θ+2π, a) = e^(2πa)·𝓤(θ,a)" ;;
  product <- lib (simplify (eq_U_dag_U1 I)) ;;
  magnitude_sq <- lib (simplify (eq_exp_sq I)) ;;
  assert_difference_zero magnitude_sq (eq_expected_mag_sq I) "" ;;
  say "  ✓ |𝓤|² = e^(2aθ) ≠ 1 (non-unitary when a≠0)" ;;
  say "  ✓ z_{t+1} = Π_P(z_t + η·e^((a+iω)Δt)·g_t)".

Definition verify_quantum_mechanics_equations : Script unit :=
  say (nl ++ rule) ;;
  say "QUANTUM MECHANICS EQUATIONS" ;;
  say rule ;;
  say "  ✓ [x, p] = iℏ (canonical commutation)" ;;
  say "  ✓ [L_i, L_j] = iℏε_{ijk}L_k (angular momentum)" ;;
  say "  ✓ iℏ∂ψ/∂t = Ĥψ" ;;
  say "  ✓ dρ/dt = -i/ℏ[Ĥ, ρ] + ∑_k γ_k D[L_k]ρ (Lindblad)" ;;
  say "  ✓ S = -k_B Tr(ρ log ρ)".

Definition verify_thermodynamics_equations : Script unit :=
  say (nl ++ rule) ;;
  say "THERMODYNAMICS EQUATIONS" ;;
  say rule ;;
  say "  ✓ S = k_B ln(Ω)" ;;
  say "  ✓ E_min = k_B T ln(2)" ;;
  say "  ✓ Z = ∑_i e^(-E_i/k_BT)" ;;
  say "  ✓ P_i = e^(-E_i/k_BT) / Z" ;;
  say "  ✓ dS/dt ≥ 0 (second law)".

Definition verify_information_theory_equations : Script unit :=
  say (nl ++ rule) ;;
  say "INFORMATION THEORY EQUATIONS" ;;
  say rule ;;
  say "  ✓ H(p) = -∑_i p_i log p_i" ;;
  say "  ✓ I(X;Y) = H(X) + H(Y) - H(X,Y)" ;;
  say "  ✓ KL(P||Q) = ∑_x P(x) log(P(x)/Q(x))" ;;
  say "  ✓ F_Q[ρ,Â] = 2∑_{n,m} (λ_n-λ_m)²/(λ_n+λ_m) |⟨n|Â|m⟩|²".

Definition verify_complex_analysis_equations : Script unit :=
  say (nl ++ rule) ;;
  say "COMPLEX ANALYSIS EQUATIONS" ;;
  say rule ;;
  assert_difference_zero (eq_euler_left I) (eq_euler_right I) "" ;;
  say "  ✓ e^(iθ) = cos(θ) + i·sin(θ)" ;;
  say "  ✓ z = r·e^(iθ)" ;;
  say "  ✓ z₁z₂ = (r₁r₂)e^(i(θ₁+θ₂))" ;;
  say "  ✓ ⟨z,w⟩ = Re(z·w̄)" ;;
  say "  ✓ |z|² = z·z̄".

Definition verify_golden_ratio_equations : Script unit :=
  say (nl ++ rule) ;;
  say "GOLDEN RATIO EQUATIONS" ;;
  say rule ;;
  assert_difference_zero (eq_phi_pow_2 I) (eq_phi_add_1 I) "" ;;
  say "  ✓ φ² = φ + 1" ;;
  assert_difference_zero (eq_inv_phi I) (eq_phi_sub_1 I) "" ;;
  say "  ✓ 1/φ = φ - 1" ;;
  say "  ✓ φ = 1 + 1/(1 + 1/(1 + ...))".

Definition verify_differential_equations : Script unit :=
  say (nl ++ rule) ;;
  say "DIFFERENTIAL EQUATIONS" ;;
  say rule ;;
  say "  ✓ dx/dt = ax - ωy" ;;
  say "  ✓ dy/dt = ωx + ay" ;;
  dV_dt_expanded <- lib (simplify (eq_dV_dt I)) ;;
  assert_difference_zero dV_dt_expanded (eq_expected I) "" ;;
  say "  ✓ dV/dt = 2a(x²+y²) = 2aV".

Definition verify_special_functions : Script unit :=
  say (nl ++ rule) ;;
  say "SPECIAL FUNCTIONS" ;;
  say rule ;;
  say "  ✓ f̂(ξ) = ∫f(x)e^(-2πixξ)dx" ;;
  say "  ✓ f(x) = ∫f̂(ξ)e^(2πixξ)dξ" ;;
  say "  ✓ (f*g)^ = f̂·ĝ".

Definition verify_entropy_flow_equations : Script unit :=
  say (nl ++ rule) ;;
  say "ENTROPY FLOW & CONSCIOUSNESS EQUATIONS" ;;
  say rule ;;
  say "  ✓ Ṡ = k_B a · I[ρ] (entropy production)" ;;
  say "  ✓ dS/dt = k_B a · F[p] (Fisher information)" ;;
  say "  ✓ τ_c ∝ (ℏω/k_BT)e^(-2π|a|) (coherence time)".

Definition verify_blackroad_constant : Script unit :=
  say (nl ++ rule) ;;
  say "BLACKROAD CONSTANT EQUATIONS" ;;
  say rule ;;
  say "  ✓ β_BR = (ℏω/k_BT)·(|∇L|/L)" ;;
  say "  ✓ β_BR ≫ 1 → Quantum coherent regime" ;;
  say "  ✓ β_BR ≈ 1 → Critical quantum-classical boundary" ;;
  say "  ✓ β_BR ≪ 1 → Classical thermal regime".

Definition verify_relativity_equations : Script unit :=
  say (nl ++ rule) ;;
  say "RELATIVITY EQUATIONS" ;;
  say rule ;;
  say "  ✓ E² = (pc)² + (m₀c²)²" ;;
  say "  ✓ E ≈ m₀c² + p²/(2m₀) (non-relativistic limit)".

Definition verify_mandelbrot_equations : Script unit :=
  say (nl ++ rule) ;;
  say "MANDELBROT & STABILITY EQUATIONS" ;;
  say rule ;;
  say "  ✓ z_{n+1} = z_n² + c (Mandelbrot iteration)" ;;
  say "  ✓ |z_n| > 2 → |z_m| → ∞ (escape criterion)" ;;
  say "  ✓ λ = lim_{n→∞} (1/n)log|z_n| (Lyapunov exponent)".


Definition run_all_verifications : Script bool :=
  say (nl ++ rule) ;;
  say "COMPREHENSIVE EQUATION VERIFICATION" ;;
  say "1,012 Equations from BlackRoad Repositories" ;;
  say rule ;;
  except_AssertionError
    (verify_spiral_operator_family ;;
     verify_quantum_mechanics_equations ;;
     verify_thermodynamics_equations ;;
     verify_information_theory_equations ;;
     verify_complex_analysis_equations ;;
     verify_golden_ratio_equations ;;
     verify_differential_equations ;;
     verify_special_functions ;;
     verify_entropy_flow_equations ;;
     verify_blackroad_constant ;;
     verify_relativity_equations ;;
     verify_mandelbrot_equations ;;
     say (nl ++ rule) ;;
     say "VERIFICATION COMPLETE" ;;
     say rule ;;
     say "  All major equation families: ✓ VERIFIED" ;;
     say "  Symbolic proofs: ✓ EXACT" ;;
     say "  No numerical approximations in core proofs" ;;
     say rule ;;
     sret true)
    (fun msg =>
       say (nl ++ "✗ VERIFICATION FAILED: " ++ msg) ;;
       sret false).

(** [simplify(a - b) == 0] holds, no call raising. *)
Definition simplifies_to_zero (a b : Expr) : Prop :=
  exists d r : Expr, sub a b = Ok d /\ simplify d = Ok r /\ eq_zero r = true.

(** The six asserted identities hold and the calls around them return. *)
Definition all_asserts_pass : Prop :=
  simplifies_to_zero (eq_U1 I) (eq_U2 I)
  /\ (exists product, simplify (eq_U_dag_U1 I) = Ok product)
  /\ (exists magnitude_sq,
        simplify (eq_exp_sq I) = Ok magnitude_sq
        /\ simplifies_to_zero magnitude_sq (eq_expected_mag_sq I))
  /\ simplifies_to_zero (eq_euler_left I) (eq_euler_right I)
  /\ simplifies_to_zero (eq_phi_pow_2 I) (eq_phi_add_1 I)
  /\ simplifies_to_zero (eq_inv_phi I) (eq_phi_sub_1 I)
  /\ (exists dV_dt_expanded,
        simplify (eq_dV_dt I) = Ok dV_dt_expanded
        /\ simplifies_to_zero dV_dt_expanded (eq_expected I)).

End Equations.

(** * Sample inputs at the polynomial oracle *)

Module Samples.

Import Poly.

(** The Taylor polynomial of a polynomial at 0 is its truncation;
    substituting a number for [x] evaluates. *)
Definition psubs (e v a : poly) : Result poly :=
  if is_x v then
    match as_number a with
    | Some q => Ok (strip [eval e q])
    | None => Raise not_a_number
    end
  else Raise not_a_symbol.


(** A library without series expansion. *)
Definition series_missing : SeriesOracle oracle := {|
  series := fun _ _ _ _ => Raise (Exception "series not available");
  removeO := fun e => Ok e;
  subs := psubs
|}.

(** Driver inputs: the first two obligations hold, the limit of [1 + x]
    at 1 is 2, and the "lemma" compares 4 with 3. *)
Definition inputs : DriverInputs oracle := {|
  ax_complex_unit := num 1;
  ax_euler_exponential := num 1;
  ax_commutativity := num 1;
  ax_associativity := num 1;
  ax_distributivity := num 1;
  spiral_op := x;
  phi := num 2;
  beta_BR := num 1;
  z_full := [0; 1]%Q;
  z_compact := x;
  euler_lhs := num (-1);
  euler_rhs := num (-1);
  exp_I_x := [1; 1]%Q;
  x_symbol := x;
  zero_point := num 0;
  pi_value := num 3;
  ratio := [1; 1]%Q;
  n_symbol := x;
  oo_value := num 1;
  phi_squared := num 4;
  phi_plus_one := num 3
|}.

(** The texts Python prints for the floating-point values of
    [prove_heisenberg_uncertainty], and for thirds under [.1f]. *)
Definition float_text : FloatText := {|
  heisenberg_dx := "1e-09";
  heisenberg_dp := "5.273e-26";
  heisenberg_product := "5.273e-35";
  heisenberg_bound := "5.273e-35";
  heisenberg_holds := true;
  rate_1f := fun proven _ =>
               match proven with
               | 0%nat => "0.0"
               | 1%nat => "33.3"
               | 2%nat => "66.7"
               | _ => "100.0"
               end
|}.

(** A process with an empty object and no output yet. *)
Definition start : Running (@FormalProofSystem oracle) :=
  {| self := FormalProofSystem_init; stdout := [] |}.

(** Conditions at the polynomial oracle: a polynomial is true when it is
    not zero, never equal to [True]; [simplify] maps a [bool] to 1 or 0. *)
Definition conditions : ConditionOracle oracle := {|
  truth := fun p => Ok (negb (is_zero p));
  eq_True := fun _ => false;
  simplify_bool := fun b => Ok (if b then num 1 else [])
|}.

Definition fresh_checker : Running (@TheoremChecker) :=
  {| self := TheoremChecker_init; stdout := [] |}.

(** Inputs of the equation checks: every pair agrees. *)
Definition equations : EquationInputs oracle := {|
  eq_U1 := x;
  eq_U2 := [0; 1]%Q;
  eq_U_dag_U1 := num 1;
  eq_exp_sq := [0; 0; 1]%Q;
  eq_expected_mag_sq := [0; 0; 1]%Q;
  eq_euler_left := x;
  eq_euler_right := x;
  eq_phi_pow_2 := num 4;
  eq_phi_add_1 := num 4;
  eq_inv_phi := num (1 # 2);
  eq_phi_sub_1 := num (1 # 2);
  eq_dV_dt := [0; 2]%Q;
  eq_expected := [0; 2]%Q
|}.

(** The same, with a first pair that differs. *)
Definition equations_with_a_slip : EquationInputs oracle := {|
  eq_U1 := x;
  eq_U2 := [0; 2]%Q;
  eq_U_dag_U1 := num 1;
  eq_exp_sq := [0; 0; 1]%Q;
  eq_expected_mag_sq := [0; 0; 1]%Q;
  eq_euler_left := x;
  eq_euler_right := x;
  eq_phi_pow_2 := num 4;
  eq_phi_add_1 := num 4;
  eq_inv_phi := num (1 # 2);
  eq_phi_sub_1 := num (1 # 2);
  eq_dV_dt := [0; 2]%Q;
  eq_expected := [0; 2]%Q
|}.

End Samples.

(** * Properties of the engine *)

Section Properties.

Context {O : Oracle}.

(** Unfolds a strategy call down to the oracle's answers. *)
Ltac unfold_engine :=
  unfold returned, final, invoked, run, try_block,
    prove_by_symbolic_simplification, prove_by_symbolic_simplification_body,
    prove_by_mathematical_induction, prove_by_mathematical_induction_body,
    prove_by_contradiction, prove_by_contradiction_body,
    prove_limit, prove_limit_body,
    prove_derivative, prove_derivative_body,
    prove_integral, prove_integral_body, integral_accepts,
    try_except, bind, call, get, set_status, append_step, ret in *;
  cbn -[String.append] in *.

(** Splits on the next answer (a test, the bounds, a result) the goal
    depends on. *)
Ltac next_answer :=
  match goal with
  | |- context [match ?o with Some _ => _ | None => _ end] =>
      is_var o; destruct o as [[? ?]|]
  | |- context [if ?b then _ else _] => destruct b eqn:?
  | |- context [match ?r with Ok _ => _ | Raise _ => _ end] => destruct r eqn:?
  end;
  cbn -[String.append] in *.

Ltac by_cases := unfold_engine; repeat next_answer.

(** ** Constructor *)

(** C9: a newly constructed [ProofObligation(name, hypothesis, conclusion,
    proof_method)] has status [UNKNOWN] and an empty [proof_steps]. *)
Theorem new_obligation_unknown_and_empty :
  forall (n : string) (h c : Expr) (m : string),
    status (new_ProofObligation n h c m) = UNKNOWN
    /\ proof_steps (new_ProofObligation n h c m) = [].
Proof.
  intros n h c m. split; reflexivity.
Qed.

(** The four given fields are stored as passed. *)
Lemma new_obligation_fields :
  forall (n : string) (h c : Expr) (m : string),
    name (new_ProofObligation n h c m) = n
    /\ hypothesis (new_ProofObligation n h c m) = h
    /\ conclusion (new_ProofObligation n h c m) = c
    /\ proof_method (new_ProofObligation n h c m) = m.
Proof.
  intros; repeat split.
Qed.

(** ** What every strategy call preserves *)

(** A strategy never touches the name, hypothesis, conclusion or method. *)
Lemma run_keeps_claim :
  forall (s : Strategy) (w : World),
    name (final s w) = name (ob w)
    /\ hypothesis (final s w) = hypothesis (ob w)
    /\ conclusion (final s w) = conclusion (ob w)
    /\ proof_method (final s w) = proof_method (ob w).
Proof.
  intros s w. destruct s; by_cases; repeat split.
Qed.

(** The log is append-only. *)
Lemma run_appends :
  forall (s : Strategy) (w : World),
    exists new_steps,
      proof_steps (final s w) = (proof_steps (ob w) ++ new_steps)%list.
Proof.
  intros s w. destruct s; by_cases; repeat rewrite <- app_assoc; cbn;
    try (eexists; reflexivity);
    exists []; now rewrite app_nil_r.
Qed.

(** ** Totality and the status lattice *)


(** C7: after any strategy call the status is [PROVEN], [REFUTED] or
    [UNKNOWN], whatever it was before; it is never [AXIOM]. *)
Theorem status_after_run_is_never_axiom :
  forall (s : Strategy) (w : World),
    (status (final s w) = PROVEN
     \/ status (final s w) = REFUTED
     \/ status (final s w) = UNKNOWN)
    /\ ProofStatus_eqb (status (final s w)) AXIOM = false.
Proof.
  intros s w. destruct s; by_cases; split; auto.
Qed.

(** C10: the boolean an entry point returns is [True] exactly when the
    status it leaves is [PROVEN]; with [REFUTED] or [UNKNOWN] it is
    [False]. *)
Theorem returns_true_iff_proven :
  forall (s : Strategy) (w : World),
    returned s w = Ok (ProofStatus_eqb (status (final s w)) PROVEN)
    /\ (returned s w = Ok true <-> status (final s w) = PROVEN)
    /\ (status (final s w) = REFUTED \/ status (final s w) = UNKNOWN ->
        returned s w = Ok false).
Proof.
  intros s w. destruct s; by_cases;
    (split; [reflexivity | split; [split; intro; congruence |]]);
    intros [H | H]; congruence.
Qed.

(** The status a strategy leaves does not depend on the status, the log or
    the recorded calls it started from. *)
Lemma status_depends_on_inputs_only :
  forall (s : Strategy) (w w' : World),
    hypothesis (ob w) = hypothesis (ob w') ->
    conclusion (ob w) = conclusion (ob w') ->
    status (final s w) = status (final s w').
Proof.
  intros s w w' Hh Hc. destruct s; unfold_engine;
    try rewrite Hh; try rewrite Hc; repeat next_answer; reflexivity.
Qed.

(** C8: running the same strategy twice in a row with the same inputs on
    the same obligation leaves, after the second run, the status the first
    run left (the oracle and the probes being functions of their
    arguments). *)
Theorem rerun_reproduces_status :
  forall (s : Strategy) (w : World),
    status (final s (snd (run s w))) = status (final s w).
Proof.
  intros s w. apply status_depends_on_inputs_only;
    destruct (run_keeps_claim s w) as (_ & Hh & Hc & _); assumption.
Qed.

(** ** Proof by contradiction *)

(** C5: [prove_by_contradiction] leaves [PROVEN] when the predicate answers
    true and [UNKNOWN], never [REFUTED], when it answers false or raises;
    so a predicate that always answers false gives [UNKNOWN]. *)
Theorem contradiction_proven_or_unknown :
  forall (assumption : Expr) (leads_to_contradiction : Expr -> Result bool)
         (w : World),
    let s := Contradiction assumption leads_to_contradiction in
    status (final s w) =
      match leads_to_contradiction assumption with
      | Ok true => PROVEN
      | Ok false => UNKNOWN
      | Raise _ => UNKNOWN
      end
    /\ ProofStatus_eqb (status (final s w)) REFUTED = false
    /\ ((forall a, leads_to_contradiction a = Ok false) ->
        status (final s w) = UNKNOWN).
Proof.
  intros a p w s. subst s. unfold_engine.
  split; [| split].
  - repeat next_answer; reflexivity.
  - repeat next_answer; reflexivity.
  - intro Hfalse. rewrite Hfalse. reflexivity.
Qed.

(** ** Mathematical induction *)

(** C6: [prove_by_mathematical_induction] calls [base_case()] first.  If it
    answers false the status is [REFUTED], the log gains "Base case FAILED"
    and [inductive_step()] is not called (the outcome is the same whatever
    that probe is).  If it answers true and [inductive_step()] answers
    false the status is [REFUTED] and the log ends with
    "Inductive step FAILED".  The status is [PROVEN] only when both answer
    true. *)
Theorem induction_protocol :
  forall (base_case inductive_step : unit -> Result bool) (w : World),
    let s := MathematicalInduction base_case inductive_step in
    (exists rest, invoked s w = (calls w ++ CBaseCase :: rest)%list)
    /\ (base_case tt = Ok false ->
        status (final s w) = REFUTED
        /\ proof_steps (final s w)
           = (proof_steps (ob w) ++ ["Base case FAILED"])%list
        /\ invoked s w = (calls w ++ [CBaseCase])%list
        /\ forall other_step : unit -> Result bool,
             run (MathematicalInduction base_case other_step) w = run s w)
    /\ (base_case tt = Ok true -> inductive_step tt = Ok false ->
        status (final s w) = REFUTED
        /\ proof_steps (final s w)
           = (proof_steps (ob w)
              ++ ["Base case: ✓ PROVEN"; "Inductive step FAILED"])%list
        /\ invoked s w = (calls w ++ [CBaseCase; CInductiveStep])%list)
    /\ (status (final s w) = PROVEN <->
        base_case tt = Ok true /\ inductive_step tt = Ok true).
Proof.
  intros base step w s. subst s. unfold_engine.
  split; [| split; [| split]].
  - repeat next_answer; repeat rewrite <- app_assoc; eexists; reflexivity.
  - intro Hb. rewrite Hb. cbn. repeat split.
  - intros Hb Hs. rewrite Hb. cbn. rewrite Hs. cbn.
    repeat rewrite <- app_assoc. repeat split.
  - destruct (base tt) as [[|]|]; cbn;
      [destruct (step tt) as [[|]|]; cbn |..];
      split; try intros [? ?]; try intro; try congruence; auto.
Qed.

(** ** Symbolic simplification *)

(** C2: with [D = simplify(H - C)], [prove_by_symbolic_simplification]
    sets [PROVEN] if [D == 0]; otherwise it calls [expand(D)] and sets
    [PROVEN] if that is zero; otherwise it calls [factor(D)] and sets
    [PROVEN] if that is zero; otherwise it sets [REFUTED] and appends
    "Cannot simplify to zero: D".  The calls are made in that order and a
    later stage is called only when the earlier ones were not zero. *)
Theorem simplification_three_stages :
  forall (w : World) (d0 D : Expr),
    sub (hypothesis (ob w)) (conclusion (ob w)) = Ok d0 ->
    simplify d0 = Ok D ->
    let s := SymbolicSimplification in
    let first :=
      (calls w ++ [CSub (hypothesis (ob w)) (conclusion (ob w));
                   CSimplify d0])%list in
    (eq_zero D = true ->
       status (final s w) = PROVEN
       /\ invoked s w = first
       /\ proof_steps (final s w)
          = (proof_steps (ob w)
             ++ [("Simplified difference to: " ++ fmt D)%string;
                 ("Since " ++ fmt D ++ " = 0, equality holds")%string])%list)
    /\ (forall E : Expr,
          eq_zero D = false -> expand D = Ok E -> eq_zero E = true ->
          status (final s w) = PROVEN
          /\ invoked s w = (first ++ [CExpand D])%list
          /\ proof_steps (final s w)
             = (proof_steps (ob w) ++ [("Expanded to: " ++ fmt E)%string])%list)
    /\ (forall E F : Expr,
          eq_zero D = false -> expand D = Ok E -> eq_zero E = false ->
          factor D = Ok F -> eq_zero F = true ->
          status (final s w) = PROVEN
          /\ invoked s w = (first ++ [CExpand D; CFactor D])%list
          /\ proof_steps (final s w)
             = (proof_steps (ob w) ++ [("Factored to: " ++ fmt F)%string])%list)
    /\ (forall E F : Expr,
          eq_zero D = false -> expand D = Ok E -> eq_zero E = false ->
          factor D = Ok F -> eq_zero F = false ->
          status (final s w) = REFUTED
          /\ invoked s w = (first ++ [CExpand D; CFactor D])%list
          /\ proof_steps (final s w)
             = (proof_steps (ob w)
                ++ [("Cannot simplify to zero: " ++ fmt D)%string])%list).
Proof.
  intros w d0 D Hsub Hsimp s first. subst s first. unfold_engine.
  rewrite Hsub. cbn -[String.append]. rewrite Hsimp. cbn -[String.append].
  split; [| split; [| split]].
  - intro HD. rewrite HD. cbn -[String.append].
    repeat rewrite <- app_assoc. repeat split.
  - intros E HD HE HE0. rewrite HD. cbn -[String.append].
    rewrite HE. cbn -[String.append]. rewrite HE0. cbn -[String.append].
    repeat rewrite <- app_assoc. repeat split.
  - intros E F HD HE HE0 HF HF0. rewrite HD. cbn -[String.append].
    rewrite HE. cbn -[String.append]. rewrite HE0. cbn -[String.append].
    rewrite HF. cbn -[String.append]. rewrite HF0. cbn -[String.append].
    repeat rewrite <- app_assoc. repeat split.
  - intros E F HD HE HE0 HF HF0. rewrite HD. cbn -[String.append].
    rewrite HE. cbn -[String.append]. rewrite HE0. cbn -[String.append].
    rewrite HF. cbn -[String.append]. rewrite HF0. cbn -[String.append].
    repeat rewrite <- app_assoc. repeat split.
Qed.

(** ** Integral equality *)

(** C4: [prove_integral] calls the indefinite [integrate(f, v)] when
    [bounds] is [None] and the definite [integrate(f, (v, lo, hi))]
    otherwise.  With [D = simplify(computed - expected_value)] it sets
    [PROVEN] if [D == 0], or, for absent bounds only, if
    [D.is_constant()] is true; in every other case where no call raises
    it sets [REFUTED].  With bounds given, [is_constant()] is not
    consulted. *)
Theorem integral_protocol :
  forall (integrand variable expected_value : Expr) (w : World),
    (forall I d0 D : Expr,
        integrate integrand (Sym variable) = Ok I ->
        sub I expected_value = Ok d0 ->
        simplify d0 = Ok D ->
        let s := Integral integrand variable None expected_value in
        let first :=
          (calls w ++ [CIntegrate integrand (Sym variable);
                       CSub I expected_value; CSimplify d0])%list in
        (eq_zero D = true ->
           status (final s w) = PROVEN /\ invoked s w = first)
        /\ (forall k : option bool,
              eq_zero D = false -> is_constant D = Ok k ->
              status (final s w) = (if truthy k then PROVEN else REFUTED)
              /\ invoked s w = (first ++ [CIsConstant D])%list))
    /\ (forall lo hi I d0 D : Expr,
          integrate integrand (Tuple3 variable lo hi) = Ok I ->
          sub I expected_value = Ok d0 ->
          simplify d0 = Ok D ->
          let s := Integral integrand variable (Some (lo, hi)) expected_value in
          status (final s w) = (if eq_zero D then PROVEN else REFUTED)
          /\ invoked s w
             = (calls w ++ [CIntegrate integrand (Tuple3 variable lo hi);
                            CSub I expected_value; CSimplify d0])%list).
Proof.
  intros f v x w. split.
  - intros I d0 D HI Hsub Hsimp s first. subst s first. unfold_engine.
    rewrite HI. cbn -[String.append]. rewrite Hsub. cbn -[String.append].
    rewrite Hsimp. cbn -[String.append]. split.
    + intro HD. rewrite HD. cbn -[String.append].
      repeat rewrite <- app_assoc. split; reflexivity.
    + intros k HD Hk. rewrite HD. cbn -[String.append].
      rewrite Hk. cbn -[String.append].
      destruct (truthy k); cbn -[String.append];
        repeat rewrite <- app_assoc; split; reflexivity.
  - intros lo hi I d0 D HI Hsub Hsimp s. subst s. unfold_engine.
    rewrite HI. cbn -[String.append]. rewrite Hsub. cbn -[String.append].
    rewrite Hsimp. cbn -[String.append].
    destruct (eq_zero D); cbn -[String.append];
      repeat rewrite <- app_assoc; split; reflexivity.
Qed.

(** ** Which paths write to the log *)

(** Simplification, induction and limit append on every path. *)
Lemma logging_strategies_append :
  forall (s : Strategy) (w : World),
    match s with
    | SymbolicSimplification | MathematicalInduction _ _ | Limit _ _ _ _ =>
        (length (proof_steps (ob w)) < length (proof_steps (final s w)))%nat
    | _ => True
    end.
Proof.
  intros s w. destruct s; try exact I; by_cases;
    repeat rewrite length_app; cbn; lia.
Qed.

(** A contradiction check whose predicate answers false appends nothing. *)
Lemma contradiction_false_is_silent :
  forall (assumption : Expr) (leads_to_contradiction : Expr -> Result bool)
         (w : World),
    leads_to_contradiction assumption = Ok false ->
    proof_steps (final (Contradiction assumption leads_to_contradiction) w)
    = proof_steps (ob w).
Proof.
  intros a p w H. unfold_engine. rewrite H. reflexivity.
Qed.

(** Derivative and integral checks append only when they set [PROVEN]: a
    refutation or a fault leaves the log as it was. *)
Lemma derivative_and_integral_silent_unless_proven :
  forall (s : Strategy) (w : World),
    match s with
    | Derivative _ _ _ | Integral _ _ _ _ =>
        ProofStatus_eqb (status (final s w)) PROVEN = false ->
        proof_steps (final s w) = proof_steps (ob w)
    | _ => True
    end.
Proof.
  intros s w. destruct s; try exact I; by_cases;
    intro; solve [reflexivity | discriminate].
Qed.

End Properties.

(** * The strategies on concrete inputs

    All runs below are at the polynomial oracle, on a fresh obligation. *)

Section Concrete.

Import Poly.

Local Open Scope Q_scope.


(** H = 3, C = 4: all three stages are tried, the status is [REFUTED] and
    the residual -1 is logged.  H = C = 2x + 1: the first stage finds
    zero.  With normalisers that leave the difference [0 + 0x] alone until
    [expand], respectively [factor], the second, respectively third, stage
    finds zero. *)
Lemma simplification_three_stages_witness :
  (let w := fresh (num 3) (num 4) in
   status (final by_simplification w) = REFUTED
   /\ invoked by_simplification w
      = [CSub (num 3) (num 4); CSimplify (num (-1)); CExpand (num (-1));
         CFactor (num (-1))]
   /\ proof_steps (final by_simplification w)
      = ["Cannot simplify to zero: -1"%string])
  /\ (let w := fresh [1; 2] [1; 2] in
      status (final by_simplification w) = PROVEN
      /\ invoked by_simplification w
         = [CSub [1; 2] [1; 2]; CSimplify [0; 0]])
  /\ (let w := fresh_at second_stage [1; 2] [1; 2] in
      status (final SymbolicSimplification w) = PROVEN
      /\ invoked SymbolicSimplification w
         = [CSub (O := second_stage) [1; 2] [1; 2];
            CSimplify (O := second_stage) [0; 0];
            CExpand (O := second_stage) [0; 0]])
  /\ (let w := fresh_at third_stage [1; 2] [1; 2] in
      status (final SymbolicSimplification w) = PROVEN
      /\ invoked SymbolicSimplification w
         = [CSub (O := third_stage) [1; 2] [1; 2];
            CSimplify (O := third_stage) [0; 0];
            CExpand (O := third_stage) [0; 0];
            CFactor (O := third_stage) [0; 0]]).
Proof.
  split; [| split; [| split]].
  - intro w.
    destruct (simplification_three_stages w (num (-1)) (num (-1))
                eq_refl eq_refl) as (_ & _ & _ & Hrefuted).
    exact (Hrefuted (num (-1)) (num (-1))
             eq_refl eq_refl eq_refl eq_refl eq_refl).
  - intro w.
    destruct (simplification_three_stages w [0; 0] [] eq_refl eq_refl)
      as (Hzero & _).
    destruct (Hzero eq_refl) as (Hst & Hcalls & _).
    split; [exact Hst | exact Hcalls].
  - intro w.
    destruct (simplification_three_stages w [0; 0] [0; 0] eq_refl eq_refl)
      as (_ & Hexpand & _).
    destruct (Hexpand [] eq_refl eq_refl eq_refl) as (Hst & Hcalls & _).
    split; [exact Hst | exact Hcalls].
  - intro w.
    destruct (simplification_three_stages w [0; 0] [0; 0] eq_refl eq_refl)
      as (_ & _ & Hfactor & _).
    destruct (Hfactor [0; 0] [] eq_refl eq_refl eq_refl eq_refl eq_refl)
      as (Hst & Hcalls & _).
    split; [exact Hst | exact Hcalls].
Defined.

(** Without bounds: the integral of 2x is accepted against x^2 (zero
    residual) and against x^2 + 5 (the residual -5 is constant), and
    refuted against x (the residual x^2 - x is not constant).  Over [0, 1]
    the integral of x is accepted against 1/2 and refuted against 1. *)
Lemma integral_protocol_witness :
  status (final (check_integral [0; 2] x None [0; 0; 1]) (fresh [] []))
  = PROVEN
  /\ status (final (check_integral [0; 2] x None [5; 0; 1]) (fresh [] []))
     = PROVEN
  /\ status (final (check_integral [0; 2] x None x) (fresh [] []))
     = REFUTED
  /\ status (final (check_integral x x (Some (num 0, num 1)) (num (1 # 2)))
                   (fresh [] []))
     = PROVEN
  /\ status (final (check_integral x x (Some (num 0, num 1)) (num 1))
                   (fresh [] []))
     = REFUTED.
Proof.
  split; [| split; [| split; [| split]]].
  - destruct (integral_protocol (O := oracle) [0; 2] x [0; 0; 1] (fresh [] []))
      as (Hindef & _).
    destruct (Hindef [0; 0; 1] [0; 0; 0] [] eq_refl eq_refl eq_refl)
      as (Hzero & _).
    exact (proj1 (Hzero eq_refl)).
  - destruct (integral_protocol (O := oracle) [0; 2] x [5; 0; 1] (fresh [] []))
      as (Hindef & _).
    destruct (Hindef [0; 0; 1] [-5; 0; 0] (num (-5)) eq_refl eq_refl eq_refl)
      as (_ & Hconst).
    exact (proj1 (Hconst (Some true) eq_refl eq_refl)).
  - destruct (integral_protocol (O := oracle) [0; 2] x x (fresh [] []))
      as (Hindef & _).
    destruct (Hindef [0; 0; 1] [0; -1; 1] [0; -1; 1] eq_refl eq_refl eq_refl)
      as (_ & Hconst).
    exact (proj1 (Hconst (Some false) eq_refl eq_refl)).
  - destruct (integral_protocol (O := oracle) x x (num (1 # 2)) (fresh [] []))
      as (_ & Hdef).
    exact (proj1 (Hdef (num 0) (num 1) (num (1 # 2)) [0 # 4] []
                    eq_refl eq_refl eq_refl)).
  - destruct (integral_protocol (O := oracle) x x (num 1) (fresh [] []))
      as (_ & Hdef).
    exact (proj1 (Hdef (num 0) (num 1) (num (1 # 2)) [-1 # 2] [-1 # 2]
                    eq_refl eq_refl eq_refl)).
Defined.

(** A predicate that always answers false leaves [UNKNOWN]. *)
Lemma contradiction_proven_or_unknown_witness :
  status (final (by_contradiction x never_contradicts) (fresh [] []))
  = UNKNOWN.
Proof.
  destruct (contradiction_proven_or_unknown (O := oracle) x never_contradicts
              (fresh [] [])) as (_ & _ & Hfalse).
  apply Hfalse. intro a. reflexivity.
Defined.

(** Base case true and inductive step false: [REFUTED], the log ends with
    "Inductive step FAILED".  Base case false: [REFUTED], and only
    [base_case()] was called. *)
Lemma induction_protocol_witness :
  (let s := by_induction (answers true) (answers false) in
   status (final s (fresh [] [])) = REFUTED
   /\ proof_steps (final s (fresh [] []))
      = ["Base case: ✓ PROVEN"%string; "Inductive step FAILED"%string]
   /\ invoked s (fresh [] []) = [CBaseCase; CInductiveStep])
  /\ (let s := by_induction (answers false) (answers true) in
      status (final s (fresh [] [])) = REFUTED
      /\ proof_steps (final s (fresh [] [])) = ["Base case FAILED"%string]
      /\ invoked s (fresh [] []) = [CBaseCase]).
Proof.
  split.
  - intro s.
    destruct (induction_protocol (O := oracle) (answers true) (answers false)
                (fresh [] [])) as (_ & _ & Hstep & _).
    exact (Hstep eq_refl eq_refl).
  - intro s.
    destruct (induction_protocol (O := oracle) (answers false) (answers true)
                (fresh [] [])) as (_ & Hbase & _).
    destruct (Hbase eq_refl) as (Hst & Hlog & Hcalls & _).
    split; [exact Hst | split; [exact Hlog | exact Hcalls]].
Defined.

(** H = 3, C = 4 is [REFUTED], and the call returned [False]. *)
Lemma returns_true_iff_proven_witness :
  let w := fresh (num 3) (num 4) in
  status (final by_simplification w) = REFUTED
  /\ returned by_simplification w = Ok false.
Proof.
  intro w.
  destruct (returns_true_iff_proven by_simplification w) as (_ & _ & Hfalse).
  split; [reflexivity | apply Hfalse; left; reflexivity].
Defined.

(** C3, at d/dx x^2 against the expected derivative 3x: the check is
    [REFUTED] and returns [False], and the log of the fresh obligation is
    still empty after the call: nothing was appended.  [prove_limit], on
    its refuting path, appends a line. *)
Theorem derivative_mismatch_appends_nothing :
  let s := check_derivative [0; 0; 1] x [0; 3] in
  let w := fresh [0; 0; 1] [0; 3] in
  returned s w = Ok false
  /\ status (final s w) = REFUTED
  /\ proof_steps (ob w) = []
  /\ proof_steps (final s w) = [].
Proof.
  repeat split.
Qed.

(** The same mismatch stated as a limit at 1 is logged. *)
Example limit_mismatch_is_logged :
  let s := check_limit [0; 0; 1] x (num 1) (num 3) in
  let w := fresh [0; 0; 1] (num 3) in
  status (final s w) = REFUTED
  /\ proof_steps (final s w) = ["Limit is 1, expected 3"%string].
Proof.
  split; reflexivity.
Qed.

(** The other silent paths: a contradiction predicate answering false, a
    derivative whose oracle call raises, an integral that is refuted and
    one whose oracle call raises. *)
Example other_silent_paths :
  proof_steps (final (by_contradiction x never_contradicts) (fresh [] [])) = []
  /\ (status (final (check_derivative x (num 2) (num 1)) (fresh [] []))
      = UNKNOWN
      /\ proof_steps (final (check_derivative x (num 2) (num 1)) (fresh [] []))
         = [])
  /\ (status (final (check_integral x x None (num 1)) (fresh [] []))
      = REFUTED
      /\ proof_steps (final (check_integral x x None (num 1)) (fresh [] []))
         = [])
  /\ (status (final (check_integral x (num 2) None (num 1)) (fresh [] []))
      = UNKNOWN
      /\ proof_steps (final (check_integral x (num 2) None (num 1))
                            (fresh [] []))
         = []).
Proof.
  repeat split.
Qed.

End Concrete.

(** * Further properties of the strategies *)

Ltac engine_unfold :=
  unfold returned, final, invoked, run, try_block,
    prove_by_symbolic_simplification, prove_by_symbolic_simplification_body,
    prove_by_mathematical_induction, prove_by_mathematical_induction_body,
    prove_by_contradiction, prove_by_contradiction_body,
    prove_limit, prove_limit_body,
    prove_derivative, prove_derivative_body,
    prove_integral, prove_integral_body, integral_accepts,
    try_except, bind, call, get, set_status, append_step, ret in *;
  cbn -[String.append] in *.

Ltac engine_split :=
  match goal with
  | |- context [match ?o with Some _ => _ | None => _ end] =>
      is_var o; destruct o as [[? ?]|]
  | |- context [if ?b then _ else _] => destruct b eqn:?
  | |- context [match ?r with Ok _ => _ | Raise _ => _ end] => destruct r eqn:?
  end;
  cbn -[String.append] in *.

Ltac engine_cases := engine_unfold; repeat engine_split.

(** Rewrites with the answers assumed in the context, one at a time. *)
Ltac use_answers :=
  repeat match goal with
         | H : _ = Ok _ |- _ => rewrite H; cbn -[String.append]
         | H : _ = Raise _ |- _ => rewrite H; cbn -[String.append]
         | H : _ = true |- _ => rewrite H; cbn -[String.append]
         | H : _ = false |- _ => rewrite H; cbn -[String.append]
         end.

Section StrategyHistory.

Context {O : Oracle}.

(** What a run appends to the log and which calls it makes depend on the
    strategy's inputs only, not on the log or the calls already there. *)
Lemma additions_depend_on_inputs_only :
  forall (s : Strategy) (w w' : World),
    hypothesis (ob w) = hypothesis (ob w') ->
    conclusion (ob w) = conclusion (ob w') ->
    exists (new_steps : list string) (new_calls : list Call),
      proof_steps (final s w) = (proof_steps (ob w) ++ new_steps)%list
      /\ proof_steps (final s w') = (proof_steps (ob w') ++ new_steps)%list
      /\ invoked s w = (calls w ++ new_calls)%list
      /\ invoked s w' = (calls w' ++ new_calls)%list.
Proof.
  intros s w w' Hh Hc. destruct s; engine_unfold;
    try rewrite Hh; try rewrite Hc; repeat engine_split;
    repeat rewrite <- app_assoc;
    eexists; eexists; repeat split;
    first [ reflexivity | symmetry; apply app_nil_r ].
Qed.

(** X1: a strategy call never changes the obligation's name, hypothesis,
    conclusion or method, never removes or rewrites a log line that was
    already there, and only adds to the recorded calls. *)
Theorem run_preserves_claim_and_history :
  forall (s : Strategy) (w : World),
    name (final s w) = name (ob w)
    /\ hypothesis (final s w) = hypothesis (ob w)
    /\ conclusion (final s w) = conclusion (ob w)
    /\ proof_method (final s w) = proof_method (ob w)
    /\ (exists new_steps,
          proof_steps (final s w) = (proof_steps (ob w) ++ new_steps)%list)
    /\ (exists new_calls, invoked s w = (calls w ++ new_calls)%list).
Proof.
  intros s w.
  destruct (run_keeps_claim s w) as (Hn & Hh & Hc & Hm).
  destruct (additions_depend_on_inputs_only s w w eq_refl eq_refl)
    as (steps & cs & Hs & _ & Hcs & _).
  repeat split; try assumption; eauto.
Qed.

(** X2: a second run with the same inputs on the same obligation appends
    the same lines again: the log after two runs is the old log followed
    by the first run's lines twice. *)
Theorem rerun_duplicates_log :
  forall (s : Strategy) (w : World),
    exists new_steps : list string,
      proof_steps (final s w) = (proof_steps (ob w) ++ new_steps)%list
      /\ proof_steps (final s (snd (run s w)))
         = (proof_steps (ob w) ++ new_steps ++ new_steps)%list.
Proof.
  intros s w.
  destruct (run_keeps_claim s w) as (_ & Hh & Hc & _).
  destruct (additions_depend_on_inputs_only s w (snd (run s w))
              (eq_sym Hh) (eq_sym Hc)) as (steps & cs & H1 & H2 & _).
  exists steps. split; [exact H1 |].
  rewrite H2. fold (final s w). rewrite H1. now rewrite app_assoc.
Qed.

End StrategyHistory.

Section StrategyOutcomes.

Context {O : Oracle}.



(** X5: [prove_limit] calls [limit], then subtracts the expected value
    and simplifies.  On a zero residual it sets [PROVEN], returns [True]
    and logs the computed limit, the expected value and "Match: ✓"; on a
    nonzero residual it sets [REFUTED], returns [False] and logs both
    values in one line. *)
Theorem limit_protocol :
  forall (expression variable limit_point expected_value : Expr)
         (w : World) (L d0 D : Expr),
    limit expression variable limit_point = Ok L ->
    sub L expected_value = Ok d0 ->
    simplify d0 = Ok D ->
    let s := Limit expression variable limit_point expected_value in
    invoked s w
    = (calls w ++ [CLimit expression variable limit_point;
                   CSub L expected_value; CSimplify d0])%list
    /\ (eq_zero D = true ->
        returned s w = Ok true
        /\ status (final s w) = PROVEN
        /\ proof_steps (final s w)
           = (proof_steps (ob w)
              ++ [("lim " ++ fmt variable ++ "→" ++ fmt limit_point ++ " "
                   ++ fmt expression ++ " = " ++ fmt L)%string;
                  ("Expected: " ++ fmt expected_value)%string;
                  "Match: ✓"%string])%list)
    /\ (eq_zero D = false ->
        returned s w = Ok false
        /\ status (final s w) = REFUTED
        /\ proof_steps (final s w)
           = (proof_steps (ob w)
              ++ [("Limit is " ++ fmt L ++ ", expected "
                   ++ fmt expected_value)%string])%list).
Proof.
  intros e v p x w L d0 D HL Hsub Hsimp s. subst s. engine_unfold.
  rewrite HL. cbn -[String.append]. rewrite Hsub. cbn -[String.append].
  rewrite Hsimp. cbn -[String.append].
  split; [| split]; [destruct (eq_zero D) | |];
    try (intro HD; rewrite HD); cbn -[String.append];
    repeat rewrite <- app_assoc; repeat split.
Qed.

(** X6: [prove_derivative] calls [diff], then subtracts the expected
    derivative and simplifies.  On a zero residual it sets [PROVEN],
    returns [True] and logs three lines; on a nonzero residual it sets
    [REFUTED], returns [False] and the log is unchanged. *)
Theorem derivative_protocol :
  forall (function variable expected_derivative : Expr)
         (w : World) (F d0 D : Expr),
    diff function variable = Ok F ->
    sub F expected_derivative = Ok d0 ->
    simplify d0 = Ok D ->
    let s := Derivative function variable expected_derivative in
    invoked s w
    = (calls w ++ [CDiff function variable;
                   CSub F expected_derivative; CSimplify d0])%list
    /\ (eq_zero D = true ->
        returned s w = Ok true
        /\ status (final s w) = PROVEN
        /\ proof_steps (final s w)
           = (proof_steps (ob w)
              ++ [("d/d" ++ fmt variable ++ " (" ++ fmt function ++ ") = "
                   ++ fmt F)%string;
                  ("Expected: " ++ fmt expected_derivative)%string;
                  "Match: ✓"%string])%list)
    /\ (eq_zero D = false ->
        returned s w = Ok false
        /\ status (final s w) = REFUTED
        /\ proof_steps (final s w) = proof_steps (ob w)).
Proof.
  intros f v x w F d0 D HF Hsub Hsimp s. subst s. engine_unfold.
  rewrite HF. cbn -[String.append]. rewrite Hsub. cbn -[String.append].
  rewrite Hsimp. cbn -[String.append].
  split; [| split]; [destruct (eq_zero D) | |];
    try (intro HD; rewrite HD); cbn -[String.append];
    repeat rewrite <- app_assoc; repeat split.
Qed.


(** X8: a run that leaves [PROVEN] has always written to the log: the
    paths that append nothing are refutations, inconclusive checks and
    faults. *)
Theorem proven_runs_are_logged :
  forall (s : Strategy) (w : World),
    status (final s w) = PROVEN ->
    (length (proof_steps (ob w)) < length (proof_steps (final s w)))%nat.
Proof.
  intros s w. destruct s; engine_cases; intro H; try discriminate;
    repeat rewrite length_app; cbn; lia.
Qed.

(** X9: a strategy call makes at least one and at most four calls out of
    the engine.  The symbolic strategies never call a probe, and induction
    and contradiction never call the library. *)
Theorem calls_made_by_a_run :
  forall (s : Strategy) (w : World),
    exists new_calls : list Call,
      invoked s w = (calls w ++ new_calls)%list
      /\ (1 <= length new_calls <= 4)%nat
      /\ forallb (fun c => Bool.eqb (is_probe c) (negb (is_symbolic s)))
                 new_calls = true.
Proof.
  intros s w. destruct s; engine_cases; repeat rewrite <- app_assoc;
    eexists; (split; [reflexivity |]); cbn; split; try lia; reflexivity.
Qed.

End StrategyOutcomes.

(** * The registries and the drivers *)

Section DictFacts.

Context {V : Type}.

Lemma dict_get_set_same :
  forall (k : string) (v : V) (d : dict V),
    dict_get k (dict_set k v d) = Some v.
Proof.
  intros k v d. induction d as [| [k' v'] r IH]; cbn.
  - now rewrite String.eqb_refl.
  - destruct (String.eqb k k') eqn:E; cbn;
      [rewrite String.eqb_refl | rewrite E]; auto.
Qed.

Lemma dict_get_set_other :
  forall (k k0 : string) (v : V) (d : dict V),
    k0 <> k -> dict_get k0 (dict_set k v d) = dict_get k0 d.
Proof.
  intros k k0 v d Hne. induction d as [| [k' v'] r IH]; cbn.
  - apply String.eqb_neq in Hne. now rewrite Hne.
  - destruct (String.eqb k k') eqn:E; cbn.
    + apply String.eqb_eq in E. subst k'.
      apply String.eqb_neq in Hne. now rewrite Hne.
    + destruct (String.eqb k0 k'); auto.
Qed.

Lemma dict_keys_set :
  forall (k : string) (v : V) (d : dict V),
    dict_keys (dict_set k v d)
    = match dict_get k d with
      | Some _ => dict_keys d
      | None => (dict_keys d ++ [k])%list
      end.
Proof.
  intros k v d. unfold dict_keys. induction d as [| [k' v'] r IH]; cbn.
  - reflexivity.
  - destruct (String.eqb k k') eqn:E; cbn.
    + apply String.eqb_eq in E. now subst.
    + rewrite IH. now destruct (dict_get k r).
Qed.

End DictFacts.

Section EffectFacts.

Context {T : Type}.

Lemma emit_nothing : forall p : Running T, emit p [] = p.
Proof.
  intros [s out]. unfold emit. cbn. now rewrite app_nil_r.
Qed.

Lemma emit_emit :
  forall (p : Running T) (a b : list string),
    emit (emit p a) b = emit p (a ++ b).
Proof.
  intros p a b. unfold emit. cbn. now rewrite app_assoc.
Qed.

Lemma print_all_emits :
  forall (lines : list string) (p : Running T),
    print_all lines p = (Ok tt, emit p lines).
Proof.
  induction lines as [| l r IH]; intro p; cbn.
  - unfold eret. now rewrite emit_nothing.
  - unfold ebind, print. rewrite IH. unfold emit. cbn.
    now rewrite <- app_assoc.
Qed.

Lemma only_prints_ebind :
  forall (A B : Type) (m : Eff T A) (k : A -> Eff T B),
    only_prints m -> (forall a, only_prints (k a)) -> only_prints (ebind m k).
Proof.
  intros A B m k Hm Hk p. unfold ebind.
  destruct (Hm p) as [l1 H1]. destruct (m p) as [[a | e] p1]; cbn in *.
  - subst p1. destruct (Hk a (emit p l1)) as [l2 H2].
    exists (l1 ++ l2)%list. now rewrite H2, emit_emit.
  - exists l1. exact H1.
Qed.

Lemma only_prints_print : forall l : string, only_prints (T := T) (print l).
Proof.
  intros l p. exists [l]. reflexivity.
Qed.

Lemma only_prints_eret : forall (A : Type) (a : A), only_prints (T := T) (eret a).
Proof.
  intros A a p. exists []. cbn. now rewrite emit_nothing.
Qed.

Lemma only_prints_elift :
  forall (A : Type) (r : Result A), only_prints (T := T) (elift r).
Proof.
  intros A r p. exists []. cbn. now rewrite emit_nothing.
Qed.

Lemma only_prints_print_all :
  forall lines : list string, only_prints (T := T) (print_all lines).
Proof.
  intros lines p. exists lines. now rewrite print_all_emits.
Qed.



End EffectFacts.

Section Registries.

Context {O : Oracle}.

(** X10: [add_axiom] and [add_definition] store under the name, replacing
    without notice what was registered under it and keeping every other
    name; a new name goes last, a known name keeps its place.  Each
    touches its own registry only and prints one line. *)
Theorem registry_writers_overwrite_by_name :
  forall (p : Process) (key : string),
    (forall statement : Statement,
       let p' := snd (add_axiom key statement p) in
       fst (add_axiom key statement p) = Ok tt
       /\ dict_get key (axioms (self p')) = Some statement
       /\ (forall other, other <> key ->
             dict_get other (axioms (self p'))
             = dict_get other (axioms (self p)))
       /\ dict_keys (axioms (self p'))
          = match dict_get key (axioms (self p)) with
            | Some _ => dict_keys (axioms (self p))
            | None => (dict_keys (axioms (self p)) ++ [key])%list
            end
       /\ definitions (self p') = definitions (self p)
       /\ lemmas (self p') = lemmas (self p)
       /\ theorems (self p') = theorems (self p)
       /\ corollaries (self p') = corollaries (self p)
       /\ stdout p' = (stdout p ++ [("  ⊢ AXIOM " ++ key)%string])%list)
    /\ (forall definition : Expr,
          let p' := snd (add_definition key definition p) in
          fst (add_definition key definition p) = Ok tt
          /\ dict_get key (definitions (self p')) = Some definition
          /\ (forall other, other <> key ->
                dict_get other (definitions (self p'))
                = dict_get other (definitions (self p)))
          /\ dict_keys (definitions (self p'))
             = match dict_get key (definitions (self p)) with
               | Some _ => dict_keys (definitions (self p))
               | None => (dict_keys (definitions (self p)) ++ [key])%list
               end
          /\ axioms (self p') = axioms (self p)
          /\ lemmas (self p') = lemmas (self p)
          /\ theorems (self p') = theorems (self p)
          /\ corollaries (self p') = corollaries (self p)
          /\ stdout p' = (stdout p ++ [("  DEF " ++ key)%string])%list).
Proof.
  intros p key. split; intros v p'; subst p';
    unfold add_axiom, add_definition, ebind, print; cbn -[String.append];
    repeat split; try reflexivity;
    auto using dict_get_set_same, dict_get_set_other;
    apply dict_keys_set.
Qed.

End Registries.

Section Drivers.

Context {O : Oracle} {SO : SeriesOracle O}.
Variable K : DriverInputs O.
Variable FT : FloatText.

(** A strategy method called by a driver returns to it. *)
Lemma call_strategy_returns :
  forall (s : Strategy) (o : ProofObligation) (p : Process),
    exists b : bool, call_strategy s o p = (Ok (b, discharged s o), p).
Proof.
  intros s o p. unfold call_strategy, discharged.
  destruct s; engine_cases; eexists; reflexivity.
Qed.

Lemma only_prints_call_strategy :
  forall (s : Strategy) (o : ProofObligation),
    only_prints (call_strategy s o).
Proof.
  intros s o p. destruct (call_strategy_returns s o p) as [b H].
  exists []. rewrite H. cbn. now rewrite emit_nothing.
Qed.

Ltac only_prints_tac :=
  repeat match goal with
         | |- only_prints (ebind _ _) => apply only_prints_ebind
         | |- only_prints (print _) => apply only_prints_print
         | |- only_prints (eret _) => apply only_prints_eret
         | |- only_prints (elift _) => apply only_prints_elift
         | |- only_prints (print_all _) => apply only_prints_print_all
         | |- only_prints (call_strategy _ _) =>
             apply only_prints_call_strategy
         | |- only_prints (let _ := _ in _) => cbv zeta
         | |- forall _, _ => intro
         end.

Lemma run_complete_verification_only_prints :
  only_prints (run_complete_verification K FT).
Proof.
  unfold run_complete_verification, prove_theorem_2_1_1_spiral_growth,
    prove_theorem_2_2_1_euler_identity,
    prove_theorem_2_4_1_golden_ratio_limit, prove_heisenberg_uncertainty,
    prove_mandelbrot_stability, print_outcome.
  only_prints_tac.
Qed.



Lemma print_outcome_emits :
  forall (t : ProofObligation) (p : Process),
    print_outcome t p = (Ok tt, emit p (outcome_lines t)).
Proof.
  intros t p. unfold print_outcome, ebind, print, outcome_lines.
  cbn -[rule nl String.append]. rewrite print_all_emits. unfold emit.
  cbn -[rule nl String.append]. now rewrite <- app_assoc.
Qed.

(** The first driver always returns the obligation it discharged. *)
Lemma spiral_driver_returns :
  forall p : Process,
    prove_theorem_2_1_1_spiral_growth K p
    = (Ok (spiral_result K),
       emit p ([(nl ++ rule)%string;
                "THEOREM 2.1.1: Spiral Growth Decomposition"%string; rule]
               ++ outcome_lines (spiral_result K))).
Proof.
  intro p. unfold prove_theorem_2_1_1_spiral_growth, ebind.
  cbn -[rule nl String.append call_strategy print_outcome].
  match goal with
  | |- context [call_strategy ?s ?o ?q] =>
      destruct (call_strategy_returns s o q) as [b Hb]; rewrite Hb
  end.
  cbn -[rule nl String.append print_outcome]. rewrite print_outcome_emits.
  unfold eret, emit, spiral_result. cbn -[rule nl String.append outcome_lines].
  repeat rewrite <- app_assoc. reflexivity.
Qed.



(** X11: the results of verification are never registered.  Running
    [run_complete_verification] leaves the object as it was, whether it
    returns or raises; after constructing the system and running it, the
    [lemmas], [theorems] and [corollaries] registries are still empty,
    while [axioms] and [definitions] hold the names registered at
    construction, in that order. *)
Theorem verification_never_registers_results :
  (forall p : Process, self (snd (run_complete_verification K FT p)) = self p)
  /\ (forall out : list string,
        let p := snd (main K FT out) in
        lemmas (self p) = []
        /\ theorems (self p) = []
        /\ corollaries (self p) = []
        /\ dict_keys (axioms (self p))
           = ["complex_unit"; "euler_exponential"; "commutativity";
              "associativity"; "distributivity"; "exp_continuous"]%string
        /\ dict_keys (definitions (self p))
           = ["spiral_operator"; "golden_ratio"; "blackroad_constant"]%string
        /\ exists lines, stdout p = (out ++ lines)%list).
Proof.
  split.
  - intro p. destruct (run_complete_verification_only_prints p) as [l H].
    now rewrite H.
  - intros out p. subst p. unfold main, ebind.
    cbn -[rule nl String.append run_complete_verification].
    match goal with
    | |- context [run_complete_verification K FT ?q] =>
        destruct (run_complete_verification_only_prints q) as [l H];
        destruct (run_complete_verification K FT q) as [r p'];
        cbn [snd] in H; subst p'
    end.
    unfold emit. cbn -[rule nl String.append].
    repeat split. repeat rewrite <- app_assoc. eexists. reflexivity.
Qed.


(** X13: [prove_theorem_2_4_1_golden_ratio_limit] prints
    "✓ PROVEN (difference is zero)" for the lemma φ² = φ + 1 whatever
    [simplify] answered for the difference: the residual is printed, not
    tested. *)
Theorem golden_ratio_lemma_is_printed_unchecked :
  forall (p : Process) (d0 residual : Expr),
    sub (phi_squared K) (phi_plus_one K) = Ok d0 ->
    simplify d0 = Ok residual ->
    fst (prove_theorem_2_4_1_golden_ratio_limit K p)
    = Ok (fibonacci_result K)
    /\ exists before : list string,
         stdout (snd (prove_theorem_2_4_1_golden_ratio_limit K p))
         = (stdout p ++ before
            ++ [("    φ² - (φ + 1) = " ++ fmt residual)%string;
                "    ✓ PROVEN (difference is zero)"%string])%list.
Proof.
  intros p d0 residual Hsub Hsimp.
  unfold prove_theorem_2_4_1_golden_ratio_limit, ebind.
  cbn -[rule nl String.append call_strategy print_outcome].
  match goal with
  | |- context [call_strategy ?s ?o ?q] =>
      destruct (call_strategy_returns s o q) as [b Hb]; rewrite Hb
  end.
  cbn -[rule nl String.append print_outcome]. rewrite print_outcome_emits.
  unfold elift, eret. cbn -[rule nl String.append outcome_lines].
  rewrite Hsub. cbn -[rule nl String.append outcome_lines].
  rewrite Hsimp. cbn -[rule nl String.append outcome_lines].
  split; [reflexivity |]. unfold emit. cbn -[rule nl String.append outcome_lines].
  repeat rewrite <- app_assoc.
  match goal with
  | |- exists before,
         (_ ++ ?a ++ ?b ++ ?c ++ ?d ++ ?e ++ _ ++ _)%list = _ =>
      exists (a ++ b ++ c ++ d ++ e)%list
  end.
  repeat rewrite <- app_assoc. reflexivity.
Qed.

(** X14: the drivers are not shielded the way the strategies are.  If the
    Taylor-series call of [prove_theorem_2_2_1_euler_identity] raises,
    the exception leaves the driver and [run_complete_verification]: no
    summary is printed, the last line being the heading of the additional
    verification. *)
Theorem driver_fault_escapes :
  forall (p : Process) (e : Exn),
    series (exp_I_x K) (x_symbol K) (zero_point K) 10 = Raise e ->
    fst (prove_theorem_2_2_1_euler_identity K p) = Raise e
    /\ fst (run_complete_verification K FT p) = Raise e
    /\ exists before : list string,
         stdout (snd (run_complete_verification K FT p))
         = (stdout p ++ before
            ++ [(nl ++ "  ADDITIONAL VERIFICATION via Taylor series:")%string])%list.
Proof.
  intros p e Hser.
  assert (Hd : forall q,
             exists before,
               prove_theorem_2_2_1_euler_identity K q
               = (Raise e,
                  emit q (before
                          ++ [(nl ++ "  ADDITIONAL VERIFICATION via Taylor series:")%string]))).
  { intro q. unfold prove_theorem_2_2_1_euler_identity, ebind.
    cbn -[rule nl String.append call_strategy print_outcome].
    match goal with
    | |- context [call_strategy ?s ?o ?q'] =>
        destruct (call_strategy_returns s o q') as [b Hb]; rewrite Hb
    end.
    cbn -[rule nl String.append print_outcome]. rewrite print_outcome_emits.
    unfold elift. cbn -[rule nl String.append outcome_lines]. rewrite Hser.
    unfold emit. cbn -[rule nl String.append outcome_lines].
    repeat rewrite <- app_assoc.
    match goal with
    | |- exists before,
           (_, {| self := _;
                  stdout := (_ ++ ?a ++ ?b ++ ?c ++ ?d ++ _)%list |}) = _ =>
        exists (a ++ b ++ c ++ d)%list
    end.
    repeat rewrite <- app_assoc. reflexivity. }
  split; [| split].
  - destruct (Hd p) as [before H]. now rewrite H.
  - unfold run_complete_verification, ebind.
    cbn -[rule nl String.append prove_theorem_2_1_1_spiral_growth
          prove_theorem_2_2_1_euler_identity].
    rewrite spiral_driver_returns.
    match goal with
    | |- context [prove_theorem_2_2_1_euler_identity K ?q] =>
        destruct (Hd q) as [before H]; rewrite H
    end.
    reflexivity.
  - unfold run_complete_verification, ebind.
    cbn -[rule nl String.append prove_theorem_2_1_1_spiral_growth
          prove_theorem_2_2_1_euler_identity].
    rewrite spiral_driver_returns.
    match goal with
    | |- context [prove_theorem_2_2_1_euler_identity K ?q] =>
        destruct (Hd q) as [before H]; rewrite H
    end.
    unfold emit. cbn -[rule nl String.append outcome_lines].
    repeat rewrite <- app_assoc.
    match goal with
    | |- exists b0,
           (_ ++ ?a ++ ?b ++ ?c ++ ?d ++ ?e ++ ?f ++ _)%list = _ =>
        exists (a ++ b ++ c ++ d ++ e ++ f)%list
    end.
    repeat rewrite <- app_assoc. reflexivity.
Qed.

End Drivers.

(** * TheoremChecker *)

Section CheckerFacts.

Context {O : Oracle} {CO : ConditionOracle O}.

Ltac checker_unfold :=
  unfold verify, verify_body, condition_result, accepted,
    simplifies_to_True, equals_zero, verified_append, failed_append,
    etry, ebind, update, print, eret, elift;
  cbn -[String.append].

Ltac checker_split :=
  match goal with
  | |- context [match ?r with Ok _ => _ | Raise _ => _ end] => destruct r eqn:?
  | |- context [if ?b then _ else _] => destruct b eqn:?
  end;
  cbn -[String.append].

(** What one [verify] call does to the checker and the output. *)
Lemma verify_outcome :
  forall (theorem_name : string) (condition : Condition)
         (description : string) (p : Running TheoremChecker),
    exists (b : bool) (lines : list string),
      verify theorem_name condition description p
      = (Ok b,
         {| self :=
              if b
              then {| verified := verified (self p) ++ [theorem_name];
                      failed := failed (self p) |}
              else {| verified := verified (self p);
                      failed := failed (self p) ++ [theorem_name] |};
            stdout := stdout p ++ lines |})
      /\ (1 <= length lines <= 2)%nat.
Proof.
  intros n c d p. checker_unfold. destruct c; cbn -[String.append];
    repeat checker_split;
    match goal with
    | |- exists b l, (Ok ?v, _) = _ /\ _ => exists v
    end;
    eexists;
    (split; [rewrite <- ?app_assoc; reflexivity | cbn; lia]).
Qed.


(** X16: a condition that is a Python [bool] is rejected only if
    [simplify(False)] raises: [verify] returns
    [condition or not raised].  In particular [verify(name, False)]
    reports the theorem as verified, because the last test,
    [condition == 0], holds for [False]. *)
Theorem python_false_is_verified :
  forall (theorem_name : string) (description : string)
         (p : Running TheoremChecker),
    (forall b : bool,
       fst (verify theorem_name (PyBool b) description p)
       = Ok (b || negb (raised (simplify_bool false))))
    /\ (forall s : Expr,
          simplify_bool false = Ok s ->
          fst (verify theorem_name (PyBool false) description p) = Ok true
          /\ verified (self (snd (verify theorem_name (PyBool false)
                                   description p)))
             = (verified (self p) ++ [theorem_name])%list
          /\ failed (self (snd (verify theorem_name (PyBool false)
                                 description p)))
             = failed (self p)).
Proof.
  intros n d p. split.
  - intros [|]; checker_unfold; repeat checker_split; reflexivity.
  - intros s Hs. checker_unfold. rewrite Hs. cbn -[String.append].
    destruct (eq_True s); destruct (nonempty d); cbn -[String.append];
      repeat split.
Qed.

Lemma names_flagged_lengths :
  forall (items : list (string * Condition * string)) (flags : list bool),
    length flags = length items ->
    (length (names_flagged true items flags)
     + length (names_flagged false items flags))%nat = length items
    /\ length (names_flagged true items flags)
       = count_occ bool_dec flags true.
Proof.
  induction items as [| [[n c] d] rest IH]; intros [| b bs] Hlen;
    cbn in *; try discriminate; auto.
  injection Hlen as Hlen. destruct (IH bs Hlen) as [H1 H2].
  destruct b; cbn; split; lia.
Qed.

(** What a row of [verify] calls does to the checker. *)
Lemma verify_each_outcome :
  forall (items : list (string * Condition * string))
         (p : Running TheoremChecker),
    exists (flags : list bool) (lines : list string),
      verify_each items p
      = (Ok flags,
         {| self :=
              {| verified := verified (self p)
                             ++ names_flagged true items flags;
                 failed := failed (self p)
                           ++ names_flagged false items flags |};
            stdout := stdout p ++ lines |})
      /\ length flags = length items.
Proof.
  induction items as [| [[n c] d] rest IH]; intro p.
  - exists [], []. cbn. unfold eret. rewrite !app_nil_r.
    destruct p as [[v f] out]. split; reflexivity.
  - cbn [verify_each]. unfold ebind.
    destruct (verify_outcome n c d p) as (b & l1 & Hv & _).
    rewrite Hv. cbv beta iota.
    match goal with
    | |- context [verify_each rest ?q] =>
        destruct (IH q) as (bs & l2 & Hr & Hlen)
    end.
    rewrite Hr. unfold eret.
    exists (b :: bs), (l1 ++ l2)%list. split; [| cbn; now rewrite Hlen].
    destruct b; cbn; rewrite <- ?app_assoc; reflexivity.
Qed.

Lemma no_failure_flagged :
  forall (items : list (string * Condition * string)) (flags : list bool),
    length flags = length items ->
    match names_flagged false items flags with
    | [] => forallb (fun b => b) flags = true
    | _ :: _ => forallb (fun b => b) flags = false
    end.
Proof.
  induction items as [| [[n c] d] rest IH]; intros [| b bs] Hlen;
    cbn in *; try discriminate; auto.
  injection Hlen as Hlen. specialize (IH bs Hlen).
  destruct b; cbn; auto.
Qed.


(** X18: [report], called after a row of [verify] calls on a new
    checker, prints the number of calls that returned [True] over the
    number of calls made, then the failed names joined by ", " if there
    is any, between two rules; it changes neither list. *)
Theorem report_after_verification :
  forall (items : list (string * Condition * string)) (out : list string),
    let p0 := {| self := TheoremChecker_init; stdout := out |} in
    let p1 := snd (verify_each items p0) in
    exists flags : list bool,
      fst (verify_each items p0) = Ok flags
      /\ fst (report p1) = Ok tt
      /\ self (snd (report p1)) = self p1
      /\ stdout (snd (report p1))
         = (stdout p1
            ++ [(nl ++ rule)%string;
                ("Verified: " ++ show_nat (count_occ bool_dec flags true)
                 ++ "/" ++ show_nat (length items) ++ " theorems")%string]
            ++ (if forallb (fun b => b) flags then []
                else [("Failed: "
                       ++ join_names (names_flagged false items flags))%string])
            ++ [(rule ++ nl)%string])%list.
Proof.
  intros items out p0 p1.
  destruct (verify_each_outcome items p0) as (flags & lines & H & Hlen).
  exists flags. subst p1. rewrite H. cbn [fst snd]. subst p0. cbn [self stdout].
  destruct (names_flagged_lengths items flags Hlen) as [Hsum Hcount].
  pose proof (no_failure_flagged items flags Hlen) as Hnone.
  unfold report, ebind, read, print, eret. cbv beta iota.
  cbn [self stdout verified failed TheoremChecker_init app].
  rewrite Hsum, Hcount.
  destruct (names_flagged false items flags) eqn:E; rewrite Hnone;
    cbn -[String.append rule nl show_nat join_names];
    repeat split; rewrite <- ?app_assoc; reflexivity.
Qed.

End CheckerFacts.

(** * The Mandelbrot iteration *)

Section Iteration.

Local Open Scope Z_scope.

Lemma loop_with_break_extends :
  forall (n : nat) (z c : Z) (t : list Z),
    loop_with_break n z c t
    = (fst (loop_with_break n z c []),
       (t ++ snd (loop_with_break n z c []))%list).
Proof.
  induction n as [| n IH]; intros z c t; cbn.
  - now rewrite app_nil_r.
  - destruct (Z.abs (mandelbrot_step z c) >? 2); cbn; [reflexivity |].
    rewrite (IH _ _ (t ++ [mandelbrot_step z c])%list).
    rewrite (IH _ _ [mandelbrot_step z c]). cbn.
    now rewrite <- app_assoc.
Qed.

Lemma loop_no_break_extends :
  forall (n : nat) (z c : Z) (t : list Z),
    loop_no_break n z c t
    = (fst (loop_no_break n z c []),
       (t ++ snd (loop_no_break n z c []))%list).
Proof.
  induction n as [| n IH]; intros z c t; cbn.
  - now rewrite app_nil_r.
  - rewrite (IH _ _ (t ++ [mandelbrot_step z c])%list).
    rewrite (IH _ _ [mandelbrot_step z c]). cbn.
    now rewrite <- app_assoc.
Qed.

Lemma last_of_nonempty :
  forall (l : list Z) (a d d' : Z), last (a :: l) d = last (a :: l) d'.
Proof.
  induction l as [| b l IH]; intros a d d'; [reflexivity |].
  change (last (b :: l) d = last (b :: l) d'). apply IH.
Qed.

(** What the loop with [break] appends, for [n] rounds from [z]. *)
Lemma loop_with_break_new :
  forall (n : nat) (z c : Z),
    let new := snd (loop_with_break n z c []) in
    (length new <= n)%nat
    /\ is_orbit c (z :: new)
    /\ Forall (fun y => Z.abs y <= 2) (removelast new)
    /\ ((length new < n)%nat -> Z.abs (last new z) > 2)
    /\ ((0 < n)%nat -> new <> [])
    /\ fst (loop_with_break n z c []) = last new z.
Proof.
  induction n as [| n IH]; intros z c; cbn.
  - repeat split; try lia; auto.
  - destruct (Z.abs (mandelbrot_step z c) >? 2) eqn:E; cbn.
    + repeat split; try lia; auto. discriminate.
    + rewrite loop_with_break_extends. cbn.
      destruct (IH (mandelbrot_step z c) c) as (H1 & H2 & H3 & H4 & H5 & H6).
      set (new := snd (loop_with_break n (mandelbrot_step z c) c [])) in *.
      repeat split.
      * lia.
      * exact H2.
      * destruct new; cbn; [constructor |].
        constructor; [lia | exact H3].
      * intro Hlt. destruct new as [| z0 new].
        -- apply H4. cbn in *. lia.
        -- rewrite (last_of_nonempty new z0 z (mandelbrot_step z c)).
           apply H4. cbn in *. lia.
      * discriminate.
      * rewrite H6. destruct new as [| z0 new]; [reflexivity |].
        apply last_of_nonempty.
Qed.

(** X19: [iterate(z, c, n)] on integers starts with [z], each later
    element is the square of the one before plus [c], and at most [n]
    elements are added (none for [n <= 0], at least one for [n >= 1],
    even when [z] itself is beyond the threshold: the start is never
    tested).  Every added element but the last is within the threshold
    2, and if the loop stopped before [n] rounds the last one is
    beyond it. *)
Theorem iterate_trajectory :
  forall z c n : Z,
    exists rest : list Z,
      iterate z c n = z :: rest
      /\ (length rest <= Z.to_nat n)%nat
      /\ (n <= 0 -> rest = [])
      /\ (1 <= n -> rest <> [])
      /\ is_orbit c (z :: rest)
      /\ Forall (fun y => Z.abs y <= 2) (removelast rest)
      /\ ((length rest < Z.to_nat n)%nat -> Z.abs (last rest z) > 2).
Proof.
  intros z c n. unfold iterate. rewrite loop_with_break_extends. cbn.
  destruct (loop_with_break_new (Z.to_nat n) z c)
    as (H1 & H2 & H3 & H4 & H5 & _).
  eexists. split; [reflexivity |]. repeat split; auto.
  - intro Hn. replace (Z.to_nat n) with 0%nat by lia. reflexivity.
  - intro Hn. apply H5. lia.
Qed.

(** X20: from a fixed point of the step within the threshold (as z = 0
    for c = 0) the trajectory is that value repeated: [n + 1] copies. *)
Theorem iterate_at_fixed_point :
  forall z c n : Z,
    mandelbrot_step z c = z ->
    Z.abs z <= 2 ->
    iterate z c n = repeat z (S (Z.to_nat n)).
Proof.
  intros z c n Hfix Hin. unfold iterate.
  rewrite loop_with_break_extends. cbn. f_equal.
  induction (Z.to_nat n) as [| k IH]; cbn; [reflexivity |].
  rewrite Hfix. destruct (Z.abs z >? 2) eqn:E; [lia |].
  rewrite loop_with_break_extends. cbn. now rewrite IH.
Qed.

Lemma step_grows :
  forall z c : Z,
    Z.abs z > 2 -> Z.abs c <= Z.abs z ->
    Z.abs (mandelbrot_step z c) >= Z.abs z + 1.
Proof.
  intros z c Hz Hc. unfold mandelbrot_step. rewrite Z.pow_2_r.
  destruct (Z.abs_spec z) as [[Hz0 Hza] | [Hz0 Hza]];
    destruct (Z.abs_spec c) as [[Hc0 Hca] | [Hc0 Hca]];
    destruct (Z.abs_spec (z * z + c)) as [[Hs0 Hsa] | [Hs0 Hsa]];
    rewrite Hza in *; rewrite Hca in *; rewrite Hsa; nia.
Qed.

(** X21: beyond the threshold there is no way back.  If [|z| > 2] and
    [|c| <= |z|], then after [k] more rounds without [break] the value
    has grown in absolute value by at least [k]; so stopping at the
    first value beyond 2 loses nothing. *)
Theorem escape_is_permanent :
  forall (k : nat) (z c : Z) (t : list Z),
    Z.abs z > 2 ->
    Z.abs c <= Z.abs z ->
    Z.abs (fst (loop_no_break k z c t)) >= Z.abs z + Z.of_nat k.
Proof.
  induction k as [| k IH]; intros z c t Hz Hc.
  - cbn. lia.
  - cbn [loop_no_break]. cbv zeta.
    pose proof (step_grows z c Hz Hc) as Hstep.
    specialize (IH (mandelbrot_step z c) c
                   (t ++ [mandelbrot_step z c])%list).
    assert (H1 : Z.abs (mandelbrot_step z c) > 2) by lia.
    assert (H2 : Z.abs c <= Z.abs (mandelbrot_step z c)) by lia.
    specialize (IH H1 H2). lia.
Qed.

(** X22: the loop with [break] computes a prefix of what the loop
    without [break] computes, and for at least one round its verdict
    [abs(z) > 2] on the last value says whether any of the values of the
    full run is beyond the threshold. *)
Theorem break_keeps_verdict :
  forall (n : nat) (z c : Z),
    (exists more : list Z,
       snd (loop_no_break n z c [])
       = (snd (loop_with_break n z c []) ++ more)%list)
    /\ ((0 < n)%nat ->
        (Z.abs (fst (loop_with_break n z c [])) >? 2)
        = existsb (fun y => Z.abs y >? 2) (snd (loop_no_break n z c []))).
Proof.
  induction n as [| n IH]; intros z c.
  - split; [exists []; reflexivity | lia].
  - cbn [loop_with_break loop_no_break]. cbv zeta.
    rewrite (loop_no_break_extends n _ _ [mandelbrot_step z c]).
    destruct (IH (mandelbrot_step z c) c) as [[more Hmore] Hverdict].
    destruct (Z.abs (mandelbrot_step z c) >? 2) eqn:E; cbn.
    + split; [eexists; reflexivity |]. intros _. now rewrite E.
    + rewrite (loop_with_break_extends n _ _ [mandelbrot_step z c]). cbn.
      split.
      * exists more. now rewrite Hmore.
      * intros _. rewrite E. cbn. destruct n as [| n'].
        -- cbn. exact E.
        -- apply Hverdict. lia.
Qed.

End Iteration.

(** * The test runner *)

Section RunnerFacts.




End RunnerFacts.

(** * The further properties on concrete inputs *)

Section MoreConcrete.

Import Poly Samples.

Local Open Scope Q_scope.



(** The limit of x^2 at 1 against 1 and against 3. *)
Lemma limit_protocol_witness :
  (let s := check_limit [0; 0; 1] x (num 1) (num 1) in
   returned s (fresh [] []) = Ok true
   /\ status (final s (fresh [] [])) = PROVEN
   /\ proof_steps (final s (fresh [] []))
      = ["lim x→1 x**2 = 1"%string; "Expected: 1"%string;
         "Match: ✓"%string])
  /\ (let s := check_limit [0; 0; 1] x (num 1) (num 3) in
      returned s (fresh [] []) = Ok false
      /\ status (final s (fresh [] [])) = REFUTED
      /\ proof_steps (final s (fresh [] []))
         = ["Limit is 1, expected 3"%string]).
Proof.
  split; intro s.
  - destruct (limit_protocol (O := oracle) [0; 0; 1] x (num 1) (num 1)
                (fresh [] []) (num 1) [0] [] eq_refl eq_refl eq_refl)
      as (_ & Hproven & _).
    exact (Hproven eq_refl).
  - destruct (limit_protocol (O := oracle) [0; 0; 1] x (num 1) (num 3)
                (fresh [] []) (num 1) [-2] [-2] eq_refl eq_refl eq_refl)
      as (_ & _ & Hrefuted).
    exact (Hrefuted eq_refl).
Defined.

(** d/dx x^2 against 2x and against 3x. *)
Lemma derivative_protocol_witness :
  (let s := check_derivative [0; 0; 1] x [0; 2] in
   returned s (fresh [] []) = Ok true
   /\ status (final s (fresh [] [])) = PROVEN
   /\ proof_steps (final s (fresh [] []))
      = ["d/dx (x**2) = 2*x"%string; "Expected: 2*x"%string;
         "Match: ✓"%string])
  /\ (let s := check_derivative [0; 0; 1] x [0; 3] in
      returned s (fresh [] []) = Ok false
      /\ status (final s (fresh [] [])) = REFUTED
      /\ proof_steps (final s (fresh [] [])) = []).
Proof.
  split; intro s.
  - destruct (derivative_protocol (O := oracle) [0; 0; 1] x [0; 2]
                (fresh [] []) [0; 2] [0; 0] [] eq_refl eq_refl eq_refl)
      as (_ & Hproven & _).
    exact (Hproven eq_refl).
  - destruct (derivative_protocol (O := oracle) [0; 0; 1] x [0; 3]
                (fresh [] []) [0; 2] [0; -1] [0; -1] eq_refl eq_refl eq_refl)
      as (_ & _ & Hrefuted).
    exact (Hrefuted eq_refl).
Defined.

(** A proven integral has logged. *)
Lemma proven_runs_are_logged_witness :
  let s := check_integral [0; 2] x None [5; 0; 1] in
  status (final s (fresh [] [])) = PROVEN
  /\ (length (proof_steps (ob (fresh [] [])))
      < length (proof_steps (final s (fresh [] []))))%nat.
Proof.
  intro s. split; [reflexivity |].
  apply (proven_runs_are_logged s (fresh [] [])). reflexivity.
Defined.

(** Registering "phi" twice keeps one entry, with the second value, and
    leaves "pi" alone. *)
Lemma registry_writers_overwrite_by_name_witness :
  let p0 := snd (add_definition "pi" (num 3) start) in
  let p1 := snd (add_definition "phi" (num 1) p0) in
  let p2 := snd (add_definition "phi" (num 2) p1) in
  dict_get "phi"%string (definitions (self p2)) = Some (num 2)
  /\ dict_get "pi"%string (definitions (self p2))
     = dict_get "pi"%string (definitions (self p1))
  /\ dict_keys (definitions (self p2)) = ["pi"; "phi"]%string.
Proof.
  intros p0 p1 p2.
  destruct (registry_writers_overwrite_by_name p1 "phi") as (_ & Hdef).
  destruct (Hdef (num 2)) as (_ & Hget & Hother & Hkeys & _).
  split; [exact Hget | split; [| exact Hkeys]].
  apply Hother. discriminate.
Defined.


(** The "lemma" compares 4 with 3; the residual 1 is printed, and so is
    the line that calls it proven. *)
Lemma golden_ratio_lemma_is_printed_unchecked_witness :
  eq_zero (Oracle := oracle) (num 1) = false
  /\ exists before : list string,
       stdout (snd (prove_theorem_2_4_1_golden_ratio_limit inputs start))
       = (before
          ++ ["    φ² - (φ + 1) = 1"%string;
              "    ✓ PROVEN (difference is zero)"%string])%list.
Proof.
  split; [reflexivity |].
  destruct (golden_ratio_lemma_is_printed_unchecked inputs start
              (num 1) (num 1) eq_refl eq_refl) as (_ & before & H).
  exists before. exact H.
Defined.

(** Without series expansion the whole run raises. *)
Lemma driver_fault_escapes_witness :
  fst (run_complete_verification (SO := series_missing) inputs float_text
         start)
  = Raise (Exception "series not available").
Proof.
  destruct (driver_fault_escapes (SO := series_missing) inputs float_text
              start (Exception "series not available") eq_refl)
    as (_ & H & _).
  exact H.
Defined.

(** [verify("claim", False)] at the sample conditions. *)
Lemma python_false_is_verified_witness :
  let r := verify (CO := conditions) "claim" (PyBool false) "" fresh_checker in
  fst r = Ok true
  /\ verified (self (snd r)) = ["claim"%string]
  /\ failed (self (snd r)) = [].
Proof.
  intro r.
  destruct (python_false_is_verified (CO := conditions) "claim" ""
              fresh_checker) as (_ & H).
  exact (H [] eq_refl).
Defined.

Local Open Scope Z_scope.

(** From 0 with c = 1 the trajectory is 0, 1, 2, 5 and stops; with no
    rounds asked it is the start alone. *)
Lemma iterate_trajectory_witness :
  iterate 0 1 20 = [0; 1; 2; 5]
  /\ iterate 5 0 0 = [5]
  /\ exists rest : list Z,
       iterate 0 1 20 = 0 :: rest
       /\ rest <> []
       /\ Z.abs (last rest 0) > 2.
Proof.
  split; [reflexivity | split; [reflexivity |]].
  destruct (iterate_trajectory 0 1 20)
    as (rest & Heq & _ & _ & Hne & _ & _ & Hlast).
  exists rest. split; [exact Heq | split; [apply Hne; lia |]].
  apply Hlast. injection Heq as Heq. rewrite <- Heq. cbn. lia.
Defined.

(** z = 0 is a fixed point for c = 0, and z = 2 for c = -2. *)
Lemma iterate_at_fixed_point_witness :
  iterate 0 0 10 = repeat 0 11 /\ iterate 2 (-2) 3 = [2; 2; 2; 2].
Proof.
  split.
  - apply (iterate_at_fixed_point 0 0 10); [reflexivity | cbn; lia].
  - apply (iterate_at_fixed_point 2 (-2) 3); [reflexivity | cbn; lia].
Defined.

(** From 5 with c = 1, three more rounds stay beyond 8. *)
Lemma escape_is_permanent_witness :
  Z.abs (fst (loop_no_break 3 5 1 [5])) >= 8.
Proof.
  apply (escape_is_permanent 3 5 1 [5]); cbn; lia.
Defined.

(** Twenty rounds from 0 with c = 1: the verdict with [break] is that of
    the full run. *)
Lemma break_keeps_verdict_witness :
  (Z.abs (fst (loop_with_break 20 0 1 [])) >? 2)
  = existsb (fun y => Z.abs y >? 2) (snd (loop_no_break 20 0 1 [])).
Proof.
  destruct (break_keeps_verdict 20 0 1) as (_ & H).
  apply H. lia.
Defined.

End MoreConcrete.

(** * EquationVerifier *)

Section EquationFacts.

Context {O : Oracle}.
Variable I : EquationInputs O.

Lemma say_then_says :
  forall (l : string) (k : unit -> Script unit),
    (exists lines, forall out, k tt out = (Completed tt, (out ++ lines)%list)) ->
    exists lines,
      forall out, sbind (say l) k out = (Completed tt, (out ++ lines)%list).
Proof.
  intros l k [lines H]. exists (l :: lines). intro out.
  unfold sbind, say. rewrite H. now rewrite <- app_assoc.
Qed.

Lemma say_says :
  forall l : string,
    exists lines, forall out, say l out = (Completed tt, (out ++ lines)%list).
Proof.
  intro l. exists [l]. reflexivity.
Qed.

Ltac only_says := repeat apply say_then_says; apply say_says.

(** The families without a check always complete, having printed. *)
Lemma unchecked_families :
  exists lq lt li ls le lb lr lm : list string,
    (forall out, verify_quantum_mechanics_equations out
                 = (Completed tt, (out ++ lq)%list))
    /\ (forall out, verify_thermodynamics_equations out
                    = (Completed tt, (out ++ lt)%list))
    /\ (forall out, verify_information_theory_equations out
                    = (Completed tt, (out ++ li)%list))
    /\ (forall out, verify_special_functions out
                    = (Completed tt, (out ++ ls)%list))
    /\ (forall out, verify_entropy_flow_equations out
                    = (Completed tt, (out ++ le)%list))
    /\ (forall out, verify_blackroad_constant out
                    = (Completed tt, (out ++ lb)%list))
    /\ (forall out, verify_relativity_equations out
                    = (Completed tt, (out ++ lr)%list))
    /\ (forall out, verify_mandelbrot_equations out
                    = (Completed tt, (out ++ lm)%list)).
Proof.
  assert (Hq : exists l, forall out, verify_quantum_mechanics_equations out
                                     = (Completed tt, (out ++ l)%list))
    by (unfold verify_quantum_mechanics_equations; only_says).
  assert (Ht : exists l, forall out, verify_thermodynamics_equations out
                                     = (Completed tt, (out ++ l)%list))
    by (unfold verify_thermodynamics_equations; only_says).
  assert (Hi : exists l, forall out, verify_information_theory_equations out
                                     = (Completed tt, (out ++ l)%list))
    by (unfold verify_information_theory_equations; only_says).
  assert (Hs : exists l, forall out, verify_special_functions out
                                     = (Completed tt, (out ++ l)%list))
    by (unfold verify_special_functions; only_says).
  assert (He : exists l, forall out, verify_entropy_flow_equations out
                                     = (Completed tt, (out ++ l)%list))
    by (unfold verify_entropy_flow_equations; only_says).
  assert (Hb : exists l, forall out, verify_blackroad_constant out
                                     = (Completed tt, (out ++ l)%list))
    by (unfold verify_blackroad_constant; only_says).
  assert (Hr : exists l, forall out, verify_relativity_equations out
                                     = (Completed tt, (out ++ l)%list))
    by (unfold verify_relativity_equations; only_says).
  assert (Hm : exists l, forall out, verify_mandelbrot_equations out
                                     = (Completed tt, (out ++ l)%list))
    by (unfold verify_mandelbrot_equations; only_says).
  destruct Hq as [lq Hq], Ht as [lt Ht], Hi as [li Hi], Hs as [ls Hs],
    He as [le He], Hb as [lb Hb], Hr as [lr Hr], Hm as [lm Hm].
  exists lq, lt, li, ls, le, lb, lr, lm. repeat split; assumption.
Qed.

Ltac script_unfold :=
  unfold run_all_verifications, except_AssertionError,
    verify_spiral_operator_family, verify_complex_analysis_equations,
    verify_golden_ratio_equations, verify_differential_equations,
    assert_difference_zero;
  unfold sbind, say, lib, sret;
  cbv beta iota.

Ltac script_step :=
  match goal with
  | Hq : forall out, verify_quantum_mechanics_equations out = _ |- _ =>
      first [ rewrite Hq | fail 1 ]
  | |- context [match ?r with Ok _ => _ | Raise _ => _ end] => destruct r eqn:?
  | |- context [if ?b then _ else _] => destruct b eqn:?
  end;
  cbv beta iota.

Ltac with_unchecked_families :=
  destruct unchecked_families
    as (lq & lt & li & ls & le & lb & lr & lm
        & Hq & Ht & Hi & Hs & He & Hb & Hr & Hm).

(** The three ways a run can end. *)
Lemma run_all_verifications_cases :
  forall out : list string,
    (fst (run_all_verifications I out) = Completed true
     /\ all_asserts_pass I)
    \/ (fst (run_all_verifications I out) = Completed false
        /\ exists (body : list string) (msg : string),
             snd (run_all_verifications I out)
             = (body
                ++ [(nl ++ "✗ VERIFICATION FAILED: " ++ msg)%string])%list)
    \/ (exists e : Exn, fst (run_all_verifications I out) = Stopped (Fault e)).
Proof.
  intro out. with_unchecked_families. script_unfold.
  repeat script_step;
    first
      [ right; right; eexists; reflexivity
      | right; left; split; [reflexivity | eexists; eexists; reflexivity]
      | left; split; [reflexivity |];
        unfold all_asserts_pass, simplifies_to_zero;
        repeat split; eauto 10 ].
Qed.

(** X24: [run_all_verifications] returns [True] exactly when each of the
    six asserted differences simplifies to zero and none of the library
    calls it makes raises.  Eight of the twelve families contribute no
    condition: they print their "✓" lines without checking anything. *)
Theorem equations_true_iff_asserts_pass :
  forall out : list string,
    fst (run_all_verifications I out) = Completed true
    <-> all_asserts_pass I.
Proof.
  intro out. split.
  - destruct (run_all_verifications_cases out)
      as [[_ H] | [[H _] | [e H]]]; [auto | |]; rewrite H; discriminate.
  - with_unchecked_families.
    intros (H1 & H2 & H3 & H4 & H5 & H6 & H7).
    destruct H1 as (d1 & r1 & A1 & B1 & C1).
    destruct H2 as (pr & P).
    destruct H3 as (m & M & d2 & r2 & A2 & B2 & C2).
    destruct H4 as (d3 & r3 & A3 & B3 & C3).
    destruct H5 as (d4 & r4 & A4 & B4 & C4).
    destruct H6 as (d5 & r5 & A5 & B5 & C5).
    destruct H7 as (v & V & d6 & r6 & A6 & B6 & C6).
    script_unfold.
    rewrite A1; cbv beta iota. rewrite B1; cbv beta iota.
    rewrite C1; cbv beta iota. rewrite P; cbv beta iota.
    rewrite M; cbv beta iota. rewrite A2; cbv beta iota.
    rewrite B2; cbv beta iota. rewrite C2; cbv beta iota.
    rewrite Hq, Ht, Hi; cbv beta iota.
    rewrite A3; cbv beta iota. rewrite B3; cbv beta iota.
    rewrite C3; cbv beta iota. rewrite A4; cbv beta iota.
    rewrite B4; cbv beta iota. rewrite C4; cbv beta iota.
    rewrite A5; cbv beta iota. rewrite B5; cbv beta iota.
    rewrite C5; cbv beta iota. rewrite V; cbv beta iota.
    rewrite A6; cbv beta iota. rewrite B6; cbv beta iota.
    rewrite C6; cbv beta iota.
    rewrite Hs, He, Hb, Hr, Hm; cbv beta iota.
    reflexivity.
Qed.

(** X25: a failed assertion never leaves [run_all_verifications]: the
    run stops there, prints "✗ VERIFICATION FAILED:" with the message
    of the [assert] as its last line and returns [False]; when the first
    assertion fails nothing but headings has been printed.  An exception
    of the library is not caught and leaves the run. *)
Theorem failed_assertion_stops_the_run :
  forall out : list string,
    (forall msg, fst (run_all_verifications I out) <> Stopped (Assertion msg))
    /\ (fst (run_all_verifications I out) = Completed false ->
        exists (body : list string) (msg : string),
          snd (run_all_verifications I out)
          = (body ++ [(nl ++ "✗ VERIFICATION FAILED: " ++ msg)%string])%list)
    /\ (forall d r : Expr,
          sub (eq_U1 I) (eq_U2 I) = Ok d ->
          simplify d = Ok r ->
          eq_zero r = false ->
          run_all_verifications I out
          = (Completed false,
             (out ++ [(nl ++ rule)%string;
                      "COMPREHENSIVE EQUATION VERIFICATION"%string;
                      "1,012 Equations from BlackRoad Repositories"%string;
                      rule;
                      (nl ++ rule)%string;
                      "SPIRAL OPERATOR FAMILY EQUATIONS"%string;
                      rule;
                      (nl ++ "✗ VERIFICATION FAILED: Basic decomposition")%string])%list))
    /\ (forall e : Exn,
          sub (eq_U1 I) (eq_U2 I) = Raise e ->
          fst (run_all_verifications I out) = Stopped (Fault e)).
Proof.
  intro out. split; [| split; [| split]].
  - intros msg Hmsg.
    destruct (run_all_verifications_cases out)
      as [[H _] | [[H _] | [e H]]]; rewrite H in Hmsg; discriminate.
  - intro Hfalse.
    destruct (run_all_verifications_cases out)
      as [[H _] | [[_ H] | [e H]]];
      [rewrite H in Hfalse; discriminate | exact H
      | rewrite H in Hfalse; discriminate].
  - intros d r Hs Hd Hz. script_unfold.
    rewrite Hs; cbv beta iota. rewrite Hd; cbv beta iota.
    rewrite Hz; cbv beta iota.
    repeat rewrite <- app_assoc. reflexivity.
  - intros e He. script_unfold. rewrite He. reflexivity.
Qed.

End EquationFacts.

Section EquationsConcrete.

Import Poly Samples.

Local Open Scope Q_scope.

(** With every pair in agreement the run returns [True]. *)
Lemma equations_true_iff_asserts_pass_witness :
  all_asserts_pass equations
  /\ fst (run_all_verifications equations []) = Completed true.
Proof.
  assert (Hpass : all_asserts_pass equations).
  { unfold all_asserts_pass, simplifies_to_zero.
    repeat split; repeat eexists; reflexivity. }
  split; [exact Hpass |].
  apply (proj2 (equations_true_iff_asserts_pass equations [])). exact Hpass.
Defined.

(** With a first pair that differs the run returns [False] after the
    headings and the failure line. *)
Lemma failed_assertion_stops_the_run_witness :
  fst (run_all_verifications equations_with_a_slip []) = Completed false
  /\ length (snd (run_all_verifications equations_with_a_slip [])) = 8%nat
  /\ last (snd (run_all_verifications equations_with_a_slip [])) ""%string
     = (nl ++ "✗ VERIFICATION FAILED: Basic decomposition")%string.
Proof.
  destruct (failed_assertion_stops_the_run equations_with_a_slip [])
    as (_ & _ & Hfirst & _).
  rewrite (Hfirst [0; -1] [0; -1] eq_refl eq_refl eq_refl).
  repeat split.
Defined.

End EquationsConcrete.
